(** * History tracking for ORM models: a shallow embedding of
      [history/models.py] and the verification of its specification.

    The development follows the layout of the Python module:

    - [Py]: the fragment of the Python run time the module relies on
      (values, exception classes, [isinstance], results that return or raise);
    - [Schema]: field and model descriptors, with the class hierarchy the
      module tests with [isinstance];
    - [Transform]: [copy_fields], [get_extra_fields], [get_meta_options],
      [create_history_model];
    - [Capture]: [create_historical_record], [post_save], [post_delete] over
      an explicit store;
    - [Registry]: [contribute_to_class], [finalize], [monkey_patch_name_map],
      [update_item_name_map] over an explicit process state.

    Definitions come first, the theorems follow. *)

From stdpp Require Import gmap strings list.
From Stdlib Require Import ZArith Ascii String.

Set Warnings "-register-all".
#[local] Open Scope Z_scope.
#[local] Open Scope string_scope.
#[local] Open Scope list_scope.

(* ===================================================================== *)
(** ** The Python fragment *)
(* ===================================================================== *)

Module Py.

(** Values held by model attributes and table columns. [VTime] is a
    date, a time or a datetime, as a point on the clock. *)
Inductive value :=
| VNone
| VInt (z : Z)
| VStr (s : string)
| VTime (t : Z)
| VObj (model : string) (pk : Z).

(** Exception classes. [DoesNotExist m] is the class [m.DoesNotExist] that
    the ORM creates for every model [m]. *)
Inductive exn_class :=
| BaseException
| Exception
| StandardError
| AttributeError
| TypeError
| ValueError
| ObjectDoesNotExist
| DoesNotExist (model : string)
| DatabaseError
| IntegrityError
| HistoricalIntegrityError.

#[global] Instance exn_class_eq_dec : EqDecision exn_class.
Proof. solve_decision. Defined.

(** The base class of each exception class. The last line is the class
    statement of the module:
    [class HistoricalIntegrityError(django.db.IntegrityError): pass]. *)
Definition exn_base (c : exn_class) : option exn_class :=
  match c with
  | BaseException => None
  | Exception => Some BaseException
  | StandardError => Some Exception
  | AttributeError | TypeError | ValueError => Some StandardError
  | ObjectDoesNotExist => Some Exception
  | DoesNotExist _ => Some ObjectDoesNotExist
  | DatabaseError => Some StandardError
  | IntegrityError => Some DatabaseError
  | HistoricalIntegrityError => Some IntegrityError
  end.

(** [issubclass c d], walking the bases of [c]; the hierarchy is five
    levels deep, [exn_depth] bounds the walk. *)
Fixpoint issubclass_upto (n : nat) (c d : exn_class) : bool :=
  bool_decide (c = d) ||
  match n with
  | O => false
  | S n' =>
      match exn_base c with
      | Some b => issubclass_upto n' b d
      | None => false
      end
  end.

Definition exn_depth : nat := 6.

Definition issubclass (c d : exn_class) : bool := issubclass_upto exn_depth c d.

(** An exception instance: its class and its argument, a message or the
    exception it was built from, as in [HistoricalIntegrityError(e)]. *)
Inductive exn :=
| Raised (c : exn_class) (msg : string)
| Wrapped (c : exn_class) (cause : exn).

Definition class_of (e : exn) : exn_class :=
  match e with
  | Raised c _ => c
  | Wrapped c _ => c
  end.

Definition isinstance (e : exn) (c : exn_class) : bool := issubclass (class_of e) c.

(** The outcome of evaluating an expression: a value, or a raised
    exception. *)
Inductive result (A : Type) :=
| Return (a : A)
| Raise (e : exn).
Arguments Return {A} a.
Arguments Raise {A} e.

Definition bind {A B} (r : result A) (k : A → result B) : result B :=
  match r with
  | Return a => k a
  | Raise e => Raise e
  end.

(** Code that reads and writes a state [S] and may raise: the state
    reached is kept when an exception leaves the code. *)
Definition Eff (S A : Type) : Type := S → result A * S.

Definition ret {S A} (a : A) : Eff S A := fun st => (Return a, st).

Definition raise {S A} (e : exn) : Eff S A := fun st => (Raise e, st).

Definition lift {S A} (r : result A) : Eff S A := fun st => (r, st).

Definition ebind {S A B} (m : Eff S A) (k : A → Eff S B) : Eff S B :=
  fun st =>
    match m st with
    | (Return a, st') => k a st'
    | (Raise e, st') => (Raise e, st')
    end.

(** [try: body except c: handler]: the handler runs for an exception that is
    an instance of [c], any other exception goes on to the caller. *)
Definition try_except {S A} (body : Eff S A) (c : exn_class) (handler : exn → Eff S A)
    : Eff S A :=
  fun st =>
    match body st with
    | (Return a, st') => (Return a, st')
    | (Raise e, st') => if isinstance e c then handler e st' else (Raise e, st')
    end.

(** Truth value of a string: the empty string is false. *)
Definition truthy (s : string) : bool := negb (bool_decide (s = "")).

(** [x or y] for an optional string [x]: [None] and [''] are false. *)
Definition or_else (x : option string) (y : string) : string :=
  match x with
  | Some s => if truthy s then s else y
  | None => y
  end.

(** [c and x or y] for a boolean [c] and strings [x], [y]. *)
Definition and_or (c : bool) (x y : string) : string :=
  if c && truthy x then x else y.

(** [str.lower] on ASCII letters. *)
Definition lower_ascii (a : ascii) : ascii :=
  let n := nat_of_ascii a in
  if ((65 <=? n) && (n <=? 90))%nat then ascii_of_nat (n + 32) else a.

Fixpoint lower (s : string) : string :=
  match s with
  | EmptyString => EmptyString
  | String a s' => String (lower_ascii a) (lower s')
  end.

(** [needle in haystack] for strings. *)
Fixpoint is_prefix (p s : string) : bool :=
  match p, s with
  | EmptyString, _ => true
  | String a p', String b s' => bool_decide (a = b) && is_prefix p' s'
  | String _ _, EmptyString => false
  end.

Fixpoint contains (needle haystack : string) : bool :=
  is_prefix needle haystack ||
  match haystack with
  | EmptyString => false
  | String _ h' => contains needle h'
  end.

End Py.

Import Py.

Notation "x <- r ;; k" := (Py.bind r (fun x => k))
  (at level 100, r at next level, right associativity, only parsing).
Notation "x <~ m ;; k" := (Py.ebind m (fun x => k))
  (at level 100, m at next level, right associativity, only parsing).

(* ===================================================================== *)
(** ** Field and model descriptors *)
(* ===================================================================== *)

Module Schema.

(** The field classes of the ORM that a model can declare. *)
Inductive FieldClass :=
| AutoField
| IntegerField
| BigIntegerField
| BooleanField
| CharField
| TextField
| DateField
| DateTimeField
| TimeField
| ForeignKey
| OneToOneField.

#[global] Instance FieldClass_eq_dec : EqDecision FieldClass.
Proof. solve_decision. Defined.

(** The base of a field class below the common root [Field]:
    [DateTimeField(DateField)], [OneToOneField(ForeignKey)],
    [BigIntegerField(IntegerField)]. *)
Definition field_base (c : FieldClass) : option FieldClass :=
  match c with
  | DateTimeField => Some DateField
  | OneToOneField => Some ForeignKey
  | BigIntegerField => Some IntegerField
  | _ => None
  end.

Definition field_issubclass (c d : FieldClass) : bool :=
  bool_decide (c = d) ||
  match field_base c with
  | Some b => bool_decide (b = d)
  | None => false
  end.

(** [field.rel]: the target model of a relation ([rel.to], by its
    [object_name]), the target's primary key field ([rel.to._meta.pk]) and the
    declared reverse name ([rel.related_name], [None] when not given). *)
Record RelOf (F : Type) := mkRel {
  to : string;
  to_pk : F;
  related_name : option string
}.
Arguments mkRel {F} _ _ _.
Arguments to {F} _.
Arguments to_pk {F} _.
Arguments related_name {F} _.

(** [default=...] of a field: a constant, or the callable
    [datetime.datetime.now], evaluated when a row is created. *)
Inductive Default :=
| DefaultValue (v : value)
| DefaultNow.

(** A field object with the attributes the module reads and writes. [opts]
    is [field.opts.object_name]: the ORM stores on a relational field the
    options of the model it was added to. *)
Inductive Field : Type := mkField {
  __class__ : FieldClass;
  name : string;
  null : bool;
  blank : bool;
  primary_key : bool;
  _unique : bool;
  db_index : bool;
  auto_now : bool;
  auto_now_add : bool;
  rel : option (RelOf Field);
  opts : string;
  field_default : option Default;
  max_length : option Z;
  choices : list (string * string)
}.

Definition Rel := RelOf Field.

Definition isinstance_field (f : Field) (c : FieldClass) : bool :=
  field_issubclass (__class__ f) c.

(** [field.unique] is a property of the ORM's [Field]:
    [self._unique or self.primary_key]. *)
Definition unique (f : Field) : bool := _unique f || primary_key f.

(** [field.get_attname()]: the name for a plain field, the name followed by
    [_id] for a foreign key. The ORM sets [field.attname] to it when the
    field is added to its model class. *)
Definition get_attname (f : Field) : string :=
  if isinstance_field f ForeignKey then name f +:+ "_id" else name f.

Definition attname (f : Field) : string := get_attname f.

(** Attribute assignments on a field object. *)
Definition set___class__ (c : FieldClass) (f : Field) : Field :=
  mkField c (name f) (null f) (blank f) (primary_key f) (_unique f)
    (db_index f) (auto_now f) (auto_now_add f) (rel f) (opts f)
    (field_default f) (max_length f) (choices f).
Definition set_name (s : string) (f : Field) : Field :=
  mkField (__class__ f) s (null f) (blank f) (primary_key f) (_unique f)
    (db_index f) (auto_now f) (auto_now_add f) (rel f) (opts f)
    (field_default f) (max_length f) (choices f).
Definition set_null (b : bool) (f : Field) : Field :=
  mkField (__class__ f) (name f) b (blank f) (primary_key f) (_unique f)
    (db_index f) (auto_now f) (auto_now_add f) (rel f) (opts f)
    (field_default f) (max_length f) (choices f).
Definition set_blank (b : bool) (f : Field) : Field :=
  mkField (__class__ f) (name f) (null f) b (primary_key f) (_unique f)
    (db_index f) (auto_now f) (auto_now_add f) (rel f) (opts f)
    (field_default f) (max_length f) (choices f).
Definition set_primary_key (b : bool) (f : Field) : Field :=
  mkField (__class__ f) (name f) (null f) (blank f) b (_unique f)
    (db_index f) (auto_now f) (auto_now_add f) (rel f) (opts f)
    (field_default f) (max_length f) (choices f).
Definition set__unique (b : bool) (f : Field) : Field :=
  mkField (__class__ f) (name f) (null f) (blank f) (primary_key f) b
    (db_index f) (auto_now f) (auto_now_add f) (rel f) (opts f)
    (field_default f) (max_length f) (choices f).
Definition set_db_index (b : bool) (f : Field) : Field :=
  mkField (__class__ f) (name f) (null f) (blank f) (primary_key f) (_unique f)
    b (auto_now f) (auto_now_add f) (rel f) (opts f)
    (field_default f) (max_length f) (choices f).
Definition set_auto_now (b : bool) (f : Field) : Field :=
  mkField (__class__ f) (name f) (null f) (blank f) (primary_key f) (_unique f)
    (db_index f) b (auto_now_add f) (rel f) (opts f)
    (field_default f) (max_length f) (choices f).
Definition set_auto_now_add (b : bool) (f : Field) : Field :=
  mkField (__class__ f) (name f) (null f) (blank f) (primary_key f) (_unique f)
    (db_index f) (auto_now f) b (rel f) (opts f)
    (field_default f) (max_length f) (choices f).
Definition set_rel (r : option Rel) (f : Field) : Field :=
  mkField (__class__ f) (name f) (null f) (blank f) (primary_key f) (_unique f)
    (db_index f) (auto_now f) (auto_now_add f) r (opts f)
    (field_default f) (max_length f) (choices f).

Definition set_related_name (s : option string) (r : Rel) : Rel :=
  mkRel (to r) (to_pk r) s.

(** A model class as the module sees it: [model.__module__],
    [model._meta.object_name], [model._meta.fields] in declaration order, and
    the class of the options object, [model._meta.__class__]. *)
Record Model := mkModel {
  __module__ : string;
  object_name : string;
  fields : list Field;
  meta_class : string
}.

(** [model._meta.pk]: the field declared as primary key. *)
Definition pk (m : Model) : option Field :=
  List.find primary_key (fields m).

End Schema.

Import Schema.

(* ===================================================================== *)
(** ** The tracking declaration and the synthesis of the historical model *)
(* ===================================================================== *)

Module Transform.

(** Behaviors for foreign key conversion. *)
Definition PRESERVE : Z := 1.
Definition CONVERT : Z := 2.

(** A [HistoricalRecords] object: [oid] is its identity ([id(self)]);
    [manager_name] is the attribute [contribute_to_class] sets before it
    connects any handler. *)
Record HistoricalRecords := mkHistoricalRecords {
  oid : nat;
  key_conversions : gmap string Z;
  add_history_properties : bool;
  manager_name : string
}.

(** [__init__]: [self.key_conversions = key_conversions or {}]. The attribute
    [manager_name] does not exist yet; the empty name stands for it until
    [contribute_to_class] assigns it. *)
Definition __init__ (oid : nat) (key_conversions : option (gmap string Z))
    (add_history_properties : bool) : HistoricalRecords :=
  mkHistoricalRecords oid
    (match key_conversions with
     | Some d => if bool_decide (d = ∅) then ∅ else d
     | None => ∅
     end)
    add_history_properties "".

Definition set_manager_name (n : string) (self : HistoricalRecords) : HistoricalRecords :=
  mkHistoricalRecords (oid self) (key_conversions self) (add_history_properties self) n.

(** [get_meta_options]: the options of the inner [Meta] class. *)
Record MetaOptions := mkMetaOptions {
  ordering : list string;
  get_latest_by : string
}.

(** The values of the attribute dictionary a historical model is built
    from. *)
Inductive ClassAttr :=
| AModule (m : string)
| AField (f : Field)
| AHistoricalObjectDescriptor (model : Model)
| APrimaryModel (model : Model)
| AUnicode
| AMeta (o : MetaOptions).

(** The body of the loop of [copy_fields], from [field = copy.copy(field)]
    to the field that is stored under [field.name]. *)
Definition copy_field (self : HistoricalRecords) (field : Field) : result Field :=
  field <-
    (if isinstance_field field ForeignKey then
       let conversion := default CONVERT (key_conversions self !! name field) in
       if bool_decide (conversion = CONVERT) then
         (* Convert the ForeignKey to a plain primary key field *)
         match rel field with
         | Some r =>
             let options_null := null field in
             let options_blank := blank field in
             let options_name := get_attname field in
             let field := to_pk r in
             Return (set_name options_name
                       (set_blank options_blank (set_null options_null field)))
         | None => Raise (Raised AttributeError "'NoneType' object has no attribute 'to'")
         end
       else if bool_decide (conversion = PRESERVE) then
         (* Preserve ForeignKey relationships with a reasonable related_name *)
         match rel field with
         | Some r =>
             let related_name := or_else (related_name r) (lower (opts field)) in
             let r := set_related_name (Some (related_name +:+ "_historical")) r in
             Return (set_rel (Some r) field)
         | None =>
             Raise (Raised AttributeError "'NoneType' object has no attribute 'related_name'")
         end
       else
         (* This should never happen, let's make sure! *)
         Raise (Raised ValueError "Invalid key conversion type")
     else Return field) ;;
  let field :=
    if isinstance_field field AutoField
    then set___class__ IntegerField field
    else field in
  let field :=
    if isinstance_field field DateField || isinstance_field field TimeField
    then set_auto_now_add false (set_auto_now false field)
    else field in
  let field :=
    if primary_key field || unique field
    then set_db_index true (set__unique false (set_primary_key false field))
    else field in
  Return field.

Fixpoint copy_fields_loop (self : HistoricalRecords) (todo : list Field)
    (fields : gmap string ClassAttr) : result (gmap string ClassAttr) :=
  match todo with
  | [] => Return fields
  | field :: todo' =>
      field <- copy_field self field ;;
      copy_fields_loop self todo' (<[name field := AField field]> fields)
  end.

(** [copy_fields]: copies of the model's original fields, as a dictionary
    mapping field name to copied field object. *)
Definition copy_fields (self : HistoricalRecords) (model : Model)
    : result (gmap string ClassAttr) :=
  copy_fields_loop self (fields model) {[ "__module__" := AModule (__module__ model) ]}.

Definition plain_field (c : FieldClass) (n : string) : Field :=
  mkField c n false false false false false false false None "" None None [].

(** [get_extra_fields]: the fields added to the historical model besides
    the copies. *)
Definition get_extra_fields (self : HistoricalRecords) (model : Model)
    : gmap string ClassAttr :=
  <[ "history_id" := AField (set_primary_key true (plain_field AutoField "history_id")) ]>
  (<[ "history_date" :=
        AField (mkField DateTimeField "history_date" false false false false true
                  false false None "" (Some DefaultNow) None []) ]>
  (<[ "history_type" :=
        AField (mkField CharField "history_type" false false false false false
                  false false None "" None (Some 1)
                  [("+", "Created"); ("~", "Changed"); ("-", "Deleted")]) ]>
  (<[ "history_object" := AHistoricalObjectDescriptor model ]>
  (<[ "primary_model" := APrimaryModel model ]>
  (<[ "__unicode__" := AUnicode ]> ∅))))).

Definition get_meta_options (self : HistoricalRecords) (model : Model) : MetaOptions :=
  mkMetaOptions ["-history_id"] "history_id".

(** The class [type(name, (models.Model,), attrs)]. *)
Record HistoryModel := mkHistoryModel {
  hm_name : string;
  hm_attrs : gmap string ClassAttr
}.

(** [dict.update]: the entries of [other] replace those of [d]. *)
Definition update (d other : gmap string ClassAttr) : gmap string ClassAttr :=
  other ∪ d.

(** [create_history_model]: the historical model associated with [model]. *)
Definition create_history_model (self : HistoricalRecords) (model : Model)
    : result HistoryModel :=
  attrs <- copy_fields self model ;;
  let attrs := update attrs (get_extra_fields self model) in
  let attrs := update attrs {[ "Meta" := AMeta (get_meta_options self model) ]} in
  let name := "Historical" +:+ object_name model in
  Return (mkHistoryModel name attrs).

End Transform.

Import Transform.

(* ===================================================================== *)
(** ** The store and the capture of snapshots *)
(* ===================================================================== *)

Module Capture.

(** A row of a shadow table: the bookkeeping columns and the copied
    columns, by [attname]. *)
Record HistoricalRow := mkRow {
  history_id : Z;
  history_date : Z;
  history_type : string;
  row_values : gmap string value
}.

(** The store: the shadow table of each historical model (by the model's
    name, most recent row first, the order [-history_id] of its [Meta]) and
    the clock that [datetime.datetime.now] reads. *)
Record Store := mkStore {
  tables : gmap string (list HistoricalRow);
  clock : Z
}.

Definition table (n : string) (st : Store) : list HistoricalRow :=
  default [] (tables st !! n).

Definition set_clock (t : Z) (st : Store) : Store := mkStore (tables st) t.

(** An instance of a tracked model at the moment a handler receives it:
    [instance._meta], the descriptors set on its class (the history manager
    under [manager_name], holding the historical model), and what
    [getattr(instance, n)] does for each attribute [n]: the value of a column
    stored under its [attname], and, under the name of a foreign key, the
    outcome of the ORM's related-object descriptor, which returns the target
    or raises. *)
Record Instance := mkInstance {
  _meta : Model;
  class_attrs : gmap string HistoryModel;
  attributes : gmap string (result value)
}.

Definition getattr (instance : Instance) (n : string) : result value :=
  match attributes instance !! n with
  | Some r => r
  | None => Raise (Raised AttributeError n)
  end.

(** [getattr(instance, self.manager_name)]: the manager of the historical
    model, through the descriptor on the class. *)
Definition getattr_manager (instance : Instance) (n : string) : result HistoryModel :=
  match class_attrs instance !! n with
  | Some hm => Return hm
  | None => Raise (Raised AttributeError n)
  end.

(** The columns of a historical model. *)
Definition column_of (a : ClassAttr) : option Field :=
  match a with
  | AField f => Some f
  | _ => None
  end.

Definition columns (hm : HistoryModel) : list Field :=
  omap (fun kv => column_of (snd kv)) (map_to_list (hm_attrs hm)).

(** What the ORM stores for a column on INSERT or UPDATE ([Field.pre_save]):
    a date or time column with [auto_now], or with [auto_now_add] on INSERT,
    stores the clock; every other column stores the value it is given. *)
Definition pre_save (f : Field) (add : bool) (now : Z) (v : value) : value :=
  if (isinstance_field f DateField || isinstance_field f TimeField)
     && (auto_now f || (auto_now_add f && add))
  then VTime now
  else v.

Definition stored_value (hm : HistoryModel) (now : Z) (a : string) (v : value) : value :=
  match List.find (fun f => bool_decide (attname f = a)) (columns hm) with
  | Some f => pre_save f true now v
  | None => v
  end.

Definition next_history_id (rows : list HistoricalRow) : Z :=
  1 + foldr Z.max 0 (history_id <$> rows).

Section WithStore.

(** The verdict of the store on an INSERT into a shadow table that holds
    [rows]: the error it raises (a constraint violation, a lost connection),
    or [None] when it accepts the row. The store is outside the module. *)
Variable db_error : string → list HistoricalRow → HistoricalRow → option exn.

(** Modelled from the spec: the history manager ([history.manager], which
    is not among the sources) and its [create]. Section 4.4: insert one new
    shadow row containing all copied field values plus the operation marker
    and current timestamp; section 3: the shadow identifier increases
    monotonically. The columns go through [pre_save] of the historical model. *)
Definition manager_create (manager : HistoryModel) (history_type : string)
    (attrs : gmap string value) : Eff Store unit :=
  fun st =>
    let rows := table (hm_name manager) st in
    let now := clock st in
    let row := mkRow (next_history_id rows) now history_type
                 (map_imap (fun a v => Some (stored_value manager now a v)) attrs) in
    match db_error (hm_name manager) rows row with
    | Some e => (Raise e, st)
    | None => (Return tt, mkStore (<[hm_name manager := row :: rows]> (tables st)) now)
    end.

(** The loop of [create_historical_record] over [instance._meta.fields],
    filling [attrs]. *)
Fixpoint collect_attrs (self : HistoricalRecords) (instance : Instance)
    (todo : list Field) (attrs : gmap string value) : result (gmap string value) :=
  match todo with
  | [] => Return attrs
  | field :: todo' =>
      _ <- (if isinstance_field field ForeignKey then
              let conversion := default CONVERT (key_conversions self !! name field) in
              if bool_decide (conversion = PRESERVE) then
                (* dereference key to make sure it exists *)
                match getattr instance (name field) with
                | Return _ => Return tt
                | Raise e =>
                    match rel field with
                    | Some r =>
                        if isinstance e (DoesNotExist (to r))
                        then Raise (Wrapped HistoricalIntegrityError e)
                        else Raise e
                    | None =>
                        Raise (Raised AttributeError "'NoneType' object has no attribute 'to'")
                    end
                end
              else Return tt
            else Return tt) ;;
      (* copy field values normally *)
      v <- getattr instance (attname field) ;;
      collect_attrs self instance todo' (<[attname field := v]> attrs)
  end.

(** [manager.create(history_type=type, **attrs)]: a key of [attrs] that
    repeats the explicit keyword is a [TypeError] of the call. *)
Definition call_create (manager : HistoryModel) (type : string)
    (attrs : gmap string value) : Eff Store unit :=
  if bool_decide (is_Some (attrs !! "history_type"))
  then raise (Raised TypeError "create() got multiple values for keyword argument 'history_type'")
  else manager_create manager type attrs.

Definition create_historical_record (self : HistoricalRecords) (instance : Instance)
    (type : string) : Eff Store unit :=
  manager <~ lift (getattr_manager instance (manager_name self)) ;;
  attrs <~ lift (collect_attrs self instance (fields (_meta instance)) ∅) ;;
  call_create manager type attrs.

Definition post_save (self : HistoricalRecords) (instance : Instance) (created : bool)
    : Eff Store unit :=
  create_historical_record self instance (and_or created "+" "~").

Definition post_delete (self : HistoricalRecords) (instance : Instance) : Eff Store unit :=
  try_except (create_historical_record self instance "-")
    HistoricalIntegrityError (fun _ => ret tt).

(** The notifications the ORM sends for a tracked model, and the handler
    each one reaches. *)
Inductive signal :=
| PostSave (instance : Instance) (created : bool)
| PostDelete (instance : Instance).

Definition handle (self : HistoricalRecords) (s : signal) : Eff Store unit :=
  match s with
  | PostSave instance created => post_save self instance created
  | PostDelete instance => post_delete self instance
  end.

(** A run of the program: notifications in the order they are sent, each
    with the time on the clock when it is sent. An exception ends the run. *)
Fixpoint run (self : HistoricalRecords) (events : list (Z * signal)) : Eff Store unit :=
  match events with
  | [] => ret tt
  | (t, s) :: events' =>
      _ <~ (fun st => handle self s (set_clock t st)) ;;
      run self events'
  end.

End WithStore.

(** A store that accepts every row. *)
Definition accept_all : string → list HistoricalRow → HistoricalRow → option exn :=
  fun _ _ _ => None.

End Capture.

Import Capture.

(* ===================================================================== *)
(** ** Declaration, finalization and the retrofit of the name map *)
(* ===================================================================== *)

Module Registry.

(** The methods of [HistoricalRecords] that are connected to signals. *)
Inductive Method := m_finalize | m_post_save | m_post_delete.

#[global] Instance Method_eq_dec : EqDecision Method.
Proof. solve_decision. Defined.

(** A connected receiver: the bound method [self.m] and the sender it is
    connected for. The ORM's dispatcher identifies a connection by
    [(id(self), m)] and the sender, and keeps one receiver per identity. *)
Record Receiver := mkReceiver {
  r_self : HistoricalRecords;
  r_method : Method;
  r_sender : string
}.

Definition lookup_key (r : Receiver) : nat * Method * string :=
  (oid (r_self r), r_method r, r_sender r).

(** [Signal.connect] of the dispatcher. *)
Definition connect (r : Receiver) (receivers : list Receiver) : list Receiver :=
  if bool_decide (lookup_key r ∈ (lookup_key <$> receivers))
  then receivers
  else receivers ++ [r].

(** What a name map holds under a name: the pair of a field or relation
    object with three flags. A [RelatedObject] connects [parent] to [model]
    through a key whose column is [column]. *)
Inductive MapObject :=
| OrmObject (n : string)
| RelatedObject (parent model column : string).

#[global] Instance MapObject_eq_dec : EqDecision MapObject.
Proof. solve_decision. Defined.

Record Entry := mkEntry {
  e_object : MapObject;
  e_model : option string;
  e_direct : bool;
  e_m2m : bool
}.

#[global] Instance Entry_eq_dec : EqDecision Entry.
Proof. solve_decision. Defined.

(** The closure [dependency_resolved] of one call of [finalize]: it holds
    [self], [sender] and the cell [count]. *)
Inductive Callback :=
| dependency_resolved (self : HistoricalRecords) (sender : Model) (count : nat).

(** The function stored as [init_name_map] on a class of options objects:
    the ORM's own, or the replacement made by [monkey_patch_name_map], a
    closure over [self], [cls] and the function it replaced. *)
Inductive InitNameMap :=
| OriginalInitNameMap
| PatchedInitNameMap (self : HistoricalRecords) (cls : Model) (original : InitNameMap).

(** The effects of the module, in the order they happen. *)
Inductive Action :=
| Connected (signal : string) (self : nat) (sender : string)
| CreatedHistoryModel (hm : string)
| SetDescriptor (cls attr : string)
| CalledMonkeyPatchNameMap (cls : string)
| CalledMonkeyPatchHistoryProperties (cls : string).

#[global] Instance Action_eq_dec : EqDecision Action.
Proof. solve_decision. Defined.

(** The state of the process. Classes are identified by their name
    ([object_name]), classes of options objects by [meta_class].
    - [HISTORICAL_RECORD_CLASSES], [PATCHED_META_CLASSES]: the two class-level
      dictionaries of [HistoricalRecords] (their keys);
    - [app_errors], [loaded], [pending_lookups], [app_cache_ready]: the ORM's
      application cache: reported errors, the models declared so far, the
      operations that wait for a model, and whether every model is loaded;
    - [class_prepared], [post_save_receivers], [post_delete_receivers]: the
      receivers of the three signals;
    - [cells]: the [count] cells of the calls of [finalize];
    - [descriptors], [properties]: attributes set on model classes;
    - [init_name_map], [_name_map]: the method of each class of options
      objects and the index stored on each model's options;
    - [log]: the effects so far. *)
Record World := mkWorld {
  HISTORICAL_RECORD_CLASSES : gset string;
  PATCHED_META_CLASSES : gset string;
  app_errors : gmap string string;
  loaded : gset string;
  pending_lookups : list (string * Callback);
  app_cache_ready : bool;
  class_prepared : list Receiver;
  post_save_receivers : list Receiver;
  post_delete_receivers : list Receiver;
  cells : list Z;
  descriptors : gmap (string * string) HistoryModel;
  properties : gset (string * string);
  init_name_map : gmap string InitNameMap;
  _name_map : gmap string (gmap string Entry);
  log : list Action
}.

Definition set_HISTORICAL_RECORD_CLASSES (x : gset string) (w : World) : World :=
  mkWorld x (PATCHED_META_CLASSES w) (app_errors w) (loaded w) (pending_lookups w)
    (app_cache_ready w) (class_prepared w) (post_save_receivers w)
    (post_delete_receivers w) (cells w) (descriptors w) (properties w)
    (init_name_map w) (_name_map w) (log w).
Definition set_PATCHED_META_CLASSES (x : gset string) (w : World) : World :=
  mkWorld (HISTORICAL_RECORD_CLASSES w) x (app_errors w) (loaded w) (pending_lookups w)
    (app_cache_ready w) (class_prepared w) (post_save_receivers w)
    (post_delete_receivers w) (cells w) (descriptors w) (properties w)
    (init_name_map w) (_name_map w) (log w).
Definition set_app_errors (x : gmap string string) (w : World) : World :=
  mkWorld (HISTORICAL_RECORD_CLASSES w) (PATCHED_META_CLASSES w) x (loaded w)
    (pending_lookups w) (app_cache_ready w) (class_prepared w) (post_save_receivers w)
    (post_delete_receivers w) (cells w) (descriptors w) (properties w)
    (init_name_map w) (_name_map w) (log w).
Definition set_loaded (x : gset string) (w : World) : World :=
  mkWorld (HISTORICAL_RECORD_CLASSES w) (PATCHED_META_CLASSES w) (app_errors w) x
    (pending_lookups w) (app_cache_ready w) (class_prepared w) (post_save_receivers w)
    (post_delete_receivers w) (cells w) (descriptors w) (properties w)
    (init_name_map w) (_name_map w) (log w).
Definition set_pending_lookups (x : list (string * Callback)) (w : World) : World :=
  mkWorld (HISTORICAL_RECORD_CLASSES w) (PATCHED_META_CLASSES w) (app_errors w) (loaded w)
    x (app_cache_ready w) (class_prepared w) (post_save_receivers w)
    (post_delete_receivers w) (cells w) (descriptors w) (properties w)
    (init_name_map w) (_name_map w) (log w).
Definition set_app_cache_ready (x : bool) (w : World) : World :=
  mkWorld (HISTORICAL_RECORD_CLASSES w) (PATCHED_META_CLASSES w) (app_errors w) (loaded w)
    (pending_lookups w) x (class_prepared w) (post_save_receivers w)
    (post_delete_receivers w) (cells w) (descriptors w) (properties w)
    (init_name_map w) (_name_map w) (log w).
Definition set_class_prepared (x : list Receiver) (w : World) : World :=
  mkWorld (HISTORICAL_RECORD_CLASSES w) (PATCHED_META_CLASSES w) (app_errors w) (loaded w)
    (pending_lookups w) (app_cache_ready w) x (post_save_receivers w)
    (post_delete_receivers w) (cells w) (descriptors w) (properties w)
    (init_name_map w) (_name_map w) (log w).
Definition set_post_save_receivers (x : list Receiver) (w : World) : World :=
  mkWorld (HISTORICAL_RECORD_CLASSES w) (PATCHED_META_CLASSES w) (app_errors w) (loaded w)
    (pending_lookups w) (app_cache_ready w) (class_prepared w) x
    (post_delete_receivers w) (cells w) (descriptors w) (properties w)
    (init_name_map w) (_name_map w) (log w).
Definition set_post_delete_receivers (x : list Receiver) (w : World) : World :=
  mkWorld (HISTORICAL_RECORD_CLASSES w) (PATCHED_META_CLASSES w) (app_errors w) (loaded w)
    (pending_lookups w) (app_cache_ready w) (class_prepared w) (post_save_receivers w)
    x (cells w) (descriptors w) (properties w)
    (init_name_map w) (_name_map w) (log w).
Definition set_cells (x : list Z) (w : World) : World :=
  mkWorld (HISTORICAL_RECORD_CLASSES w) (PATCHED_META_CLASSES w) (app_errors w) (loaded w)
    (pending_lookups w) (app_cache_ready w) (class_prepared w) (post_save_receivers w)
    (post_delete_receivers w) x (descriptors w) (properties w)
    (init_name_map w) (_name_map w) (log w).
Definition set_descriptors (x : gmap (string * string) HistoryModel) (w : World) : World :=
  mkWorld (HISTORICAL_RECORD_CLASSES w) (PATCHED_META_CLASSES w) (app_errors w) (loaded w)
    (pending_lookups w) (app_cache_ready w) (class_prepared w) (post_save_receivers w)
    (post_delete_receivers w) (cells w) x (properties w)
    (init_name_map w) (_name_map w) (log w).
Definition set_properties (x : gset (string * string)) (w : World) : World :=
  mkWorld (HISTORICAL_RECORD_CLASSES w) (PATCHED_META_CLASSES w) (app_errors w) (loaded w)
    (pending_lookups w) (app_cache_ready w) (class_prepared w) (post_save_receivers w)
    (post_delete_receivers w) (cells w) (descriptors w) x
    (init_name_map w) (_name_map w) (log w).
Definition set_init_name_map (x : gmap string InitNameMap) (w : World) : World :=
  mkWorld (HISTORICAL_RECORD_CLASSES w) (PATCHED_META_CLASSES w) (app_errors w) (loaded w)
    (pending_lookups w) (app_cache_ready w) (class_prepared w) (post_save_receivers w)
    (post_delete_receivers w) (cells w) (descriptors w) (properties w)
    x (_name_map w) (log w).
Definition set__name_map (x : gmap string (gmap string Entry)) (w : World) : World :=
  mkWorld (HISTORICAL_RECORD_CLASSES w) (PATCHED_META_CLASSES w) (app_errors w) (loaded w)
    (pending_lookups w) (app_cache_ready w) (class_prepared w) (post_save_receivers w)
    (post_delete_receivers w) (cells w) (descriptors w) (properties w)
    (init_name_map w) x (log w).
Definition set_log (x : list Action) (w : World) : World :=
  mkWorld (HISTORICAL_RECORD_CLASSES w) (PATCHED_META_CLASSES w) (app_errors w) (loaded w)
    (pending_lookups w) (app_cache_ready w) (class_prepared w) (post_save_receivers w)
    (post_delete_receivers w) (cells w) (descriptors w) (properties w)
    (init_name_map w) (_name_map w) x.

(** The process before any model is declared. *)
Definition initial : World :=
  mkWorld ∅ ∅ ∅ ∅ [] false [] [] [] [] ∅ ∅ ∅ ∅ [].

Definition modify (f : World → World) : Eff World unit := fun w => (Return tt, f w).

Definition record (a : Action) : Eff World unit :=
  modify (fun w => set_log (log w ++ [a]) w).

(** [contribute_to_class(self, cls, name)]; the result is [self] after the
    assignment of [manager_name]. *)
Definition contribute_to_class (self : HistoricalRecords) (cls : Model) (name : string)
    : Eff World HistoricalRecords :=
  _ <~ modify (fun w =>
         if bool_decide (object_name cls ∈ HISTORICAL_RECORD_CLASSES w)
         then set_app_errors
                (<[object_name cls :=
                     "Models cannot have more than one HistoricalRecords field."]>
                   (app_errors w)) w
         else w) ;;
  _ <~ modify (fun w =>
         set_HISTORICAL_RECORD_CLASSES ({[object_name cls]} ∪ HISTORICAL_RECORD_CLASSES w) w) ;;
  let self := set_manager_name name self in
  _ <~ modify (fun w =>
         set_class_prepared
           (connect (mkReceiver self m_finalize (object_name cls)) (class_prepared w)) w) ;;
  _ <~ record (Connected "class_prepared" (oid self) (object_name cls)) ;;
  ret self.

(** [monkey_patch_history_properties]: the properties [created_date] and
    [last_modified_date] on the tracked class. *)
Definition monkey_patch_history_properties (self : HistoricalRecords) (cls : Model)
    : Eff World unit :=
  _ <~ record (CalledMonkeyPatchHistoryProperties (object_name cls)) ;;
  modify (fun w =>
    set_properties
      ({[ (object_name cls, "created_date"); (object_name cls, "last_modified_date") ]}
         ∪ properties w) w).

(** [monkey_patch_name_map]: replace [init_name_map] on the class of the
    options object of [cls], unless that class is already patched. *)
Definition monkey_patch_name_map (self : HistoricalRecords) (cls : Model) : Eff World unit :=
  _ <~ record (CalledMonkeyPatchNameMap (object_name cls)) ;;
  fun w =>
    if bool_decide (meta_class cls ∈ PATCHED_META_CLASSES w) then (Return tt, w)
    else
      let original_init_name_map :=
        default OriginalInitNameMap (init_name_map w !! meta_class cls) in
      let w :=
        set_init_name_map
          (<[meta_class cls := PatchedInitNameMap self cls original_init_name_map]>
             (init_name_map w)) w in
      (* keep track of the fact that we patched this so we don't patch
         it multiple times *)
      (Return tt, set_PATCHED_META_CLASSES ({[meta_class cls]} ∪ PATCHED_META_CLASSES w) w).

(** [update_item_name_map]: a copy of [map] with the history relation
    under [self.manager_name]. *)
Definition update_item_name_map (self : HistoricalRecords) (map : gmap string Entry)
    (cls : Model) : Eff World (gmap string Entry) :=
  fun w =>
    (* inject additional lookup into item name map *)
    match descriptors w !! (object_name cls, manager_name self) with
    | None => (Raise (Raised AttributeError (manager_name self)), w)
    | Some history_model =>
        match pk cls with
        | None =>
            (Raise (Raised AttributeError "'NoneType' object has no attribute 'get_attname'"), w)
        | Some p =>
            let history_fk_column := get_attname p in
            let rel :=
              RelatedObject (object_name cls) (hm_name history_model) history_fk_column in
            let m := map in
            (Return (<[manager_name self := mkEntry rel None false false]> m), w)
        end
    end.

Definition get_field_dependencies (self : HistoricalRecords) (model : Model) : list Field :=
  List.filter (fun field => isinstance_field field ForeignKey) (fields model).

(** The inner function [_finalize] of [finalize]. *)
Definition _finalize (self : HistoricalRecords) (sender : Model) : Eff World unit :=
  history_model <~ lift (create_history_model self sender) ;;
  _ <~ record (CreatedHistoryModel (hm_name history_model)) ;;
  _ <~ modify (fun w =>
         set_descriptors
           (<[(object_name sender, manager_name self) := history_model]> (descriptors w)) w) ;;
  _ <~ record (SetDescriptor (object_name sender) (manager_name self)) ;;
  _ <~ monkey_patch_name_map self sender ;;
  if add_history_properties self
  then monkey_patch_history_properties self sender
  else ret tt.

(** A call of the closure [dependency_resolved]:
    [count[0] = count[0] - 1], then [_finalize()] when it is zero. *)
Definition call (operation : Callback) : Eff World unit :=
  match operation with
  | dependency_resolved self sender count =>
      _ <~ modify (fun w =>
             set_cells (<[count := default 0 (cells w !! count) - 1]> (cells w)) w) ;;
      fun w =>
        if bool_decide (default 0 (cells w !! count) = 0)
        then _finalize self sender w
        else (Return tt, w)
  end.

(** The ORM's [add_lazy_relation(cls, field, relation, operation)]: the
    operation is called at once when the model [relation] is declared, and
    waits for its declaration otherwise. *)
Definition add_lazy_relation (cls : Model) (relation : string) (operation : Callback)
    : Eff World unit :=
  fun w =>
    if bool_decide (relation ∈ loaded w)
    then call operation w
    else (Return tt, set_pending_lookups (pending_lookups w ++ [(relation, operation)]) w).

Fixpoint add_lazy_relations (sender : Model) (deps : list Field) (operation : Callback)
    : Eff World unit :=
  match deps with
  | [] => ret tt
  | dep :: deps' =>
      match rel dep with
      | Some r =>
          _ <~ add_lazy_relation sender (to r) operation ;;
          add_lazy_relations sender deps' operation
      | None => raise (Raised AttributeError "'NoneType' object has no attribute 'to'")
      end
  end.

(** [finalize(self, sender)], the receiver of [class_prepared]. *)
Definition finalize (self : HistoricalRecords) (sender : Model) : Eff World unit :=
  (* The HistoricalRecords object will be discarded,
     so the signal handlers can't use weak references. *)
  _ <~ modify (fun w =>
         set_post_save_receivers
           (connect (mkReceiver self m_post_save (object_name sender))
              (post_save_receivers w)) w) ;;
  _ <~ record (Connected "post_save" (oid self) (object_name sender)) ;;
  _ <~ modify (fun w =>
         set_post_delete_receivers
           (connect (mkReceiver self m_post_delete (object_name sender))
              (post_delete_receivers w)) w) ;;
  _ <~ record (Connected "post_delete" (oid self) (object_name sender)) ;;
  let deps := get_field_dependencies self sender in
  if bool_decide (deps ≠ []) then
    fun w =>
      let count := List.length (cells w) in
      let w := set_cells (cells w ++ [Z.of_nat (List.length deps)]) w in
      add_lazy_relations sender deps (dependency_resolved self sender count) w
  else _finalize self sender.

Fixpoint call_all (operations : list Callback) : Eff World unit :=
  match operations with
  | [] => ret tt
  | operation :: operations' => _ <~ call operation ;; call_all operations'
  end.

(** The ORM declares the model [m]: it joins the declared models, and the
    operations that waited for it are taken off the list and called, in the
    order they were added. *)
Definition model_declared (m : string) : Eff World unit :=
  fun w =>
    let waiting := List.filter (fun p => bool_decide (fst p = m)) (pending_lookups w) in
    let others := List.filter (fun p => negb (bool_decide (fst p = m))) (pending_lookups w) in
    call_all (snd <$> waiting) (set_pending_lookups others (set_loaded ({[m]} ∪ loaded w) w)).

Fixpoint models_declared (ms : list string) : Eff World unit :=
  match ms with
  | [] => ret tt
  | m :: ms' => _ <~ model_declared m ;; models_declared ms'
  end.

Fixpoint call_receivers (receivers : list Receiver) (sender : Model) : Eff World unit :=
  match receivers with
  | [] => ret tt
  | r :: receivers' =>
      _ <~ (if bool_decide (r_sender r = object_name sender)
            then match r_method r with
                 | m_finalize => finalize (r_self r) sender
                 | _ => ret tt
                 end
            else ret tt) ;;
      call_receivers receivers' sender
  end.

(** The ORM sends [class_prepared] for [sender]: every receiver connected
    for that sender is called. *)
Definition send_class_prepared (sender : Model) : Eff World unit :=
  fun w => call_receivers (class_prepared w) sender w.

(** The class statement of a model with the tracking declarations
    [(self, name)] among its attributes: the ORM calls [contribute_to_class]
    on each, then sends [class_prepared]. *)
Fixpoint contribute_all (declarations : list (HistoricalRecords * string)) (cls : Model)
    : Eff World unit :=
  match declarations with
  | [] => ret tt
  | (self, name) :: declarations' =>
      _ <~ contribute_to_class self cls name ;;
      contribute_all declarations' cls
  end.

Definition declare_class (cls : Model) (declarations : list (HistoricalRecords * string))
    : Eff World unit :=
  _ <~ contribute_all declarations cls ;;
  send_class_prepared cls.

Section NameMap.

(** The map the ORM's own [init_name_map] builds for a model, from its
    fields and the relations that point to it. *)
Variable orm_name_map : Model → gmap string Entry.

(** A call [init_name_map(meta)] of the function [f]. The ORM's own
    function stores the map on [meta] once the application cache is ready
    and returns it; the replacement is the inner function [init_name_map]
    of [monkey_patch_name_map]. Python compares the [RelatedObject] of an
    entry by identity; here entries are compared by structure: when the two
    maps differ only in the identity of that object, the map returned and the
    map stored are the same maps as here. *)
Fixpoint call_init_name_map (f : InitNameMap) (meta : Model)
    : Eff World (gmap string Entry) :=
  match f with
  | OriginalInitNameMap =>
      let cache := orm_name_map meta in
      fun w =>
        if app_cache_ready w
        then (Return cache, set__name_map (<[object_name meta := cache]> (_name_map w)) w)
        else (Return cache, w)
  | PatchedInitNameMap self cls original_init_name_map =>
      original_map <~ call_init_name_map original_init_name_map meta ;;
      updated_map <~ update_item_name_map self original_map cls ;;
      fun w =>
        if bool_decide (original_map ≠ updated_map) && app_cache_ready w
        then (Return updated_map,
              set__name_map (<[object_name meta := updated_map]> (_name_map w)) w)
        else (Return original_map, w)
  end.

(** [meta.init_name_map()]: the method found on the class of [meta]. *)
Definition rebuild_name_map (meta : Model) : Eff World (gmap string Entry) :=
  fun w =>
    call_init_name_map
      (default OriginalInitNameMap (init_name_map w !! meta_class meta)) meta w.

End NameMap.

End Registry.

Import Registry.


(* ===================================================================== *)
(** ** The view of a row as an instance of the tracked model *)
(* ===================================================================== *)

Module Descriptor.





End Descriptor.

Import Descriptor.
(* ===================================================================== *)
(** ** Vocabulary of the statements *)
(* ===================================================================== *)

(** The three steps every copied field goes through after the treatment
    of foreign keys. *)
Definition finish (field : Field) : Field :=
  let field :=
    if isinstance_field field AutoField
    then set___class__ IntegerField field
    else field in
  let field :=
    if isinstance_field field DateField || isinstance_field field TimeField
    then set_auto_now_add false (set_auto_now false field)
    else field in
  if primary_key field || unique field
  then set_db_index true (set__unique false (set_primary_key false field))
  else field.

(** The policy of a field: [self.key_conversions.get(field.name, CONVERT)]. *)
Definition conversion_of (self : HistoricalRecords) (field : Field) : Z :=
  default CONVERT (key_conversions self !! name field).

Definition preserved (self : HistoricalRecords) (field : Field) : bool :=
  isinstance_field field ForeignKey && bool_decide (conversion_of self field = PRESERVE).

Definition is_date_or_time (f : Field) : bool :=
  isinstance_field f DateField || isinstance_field f TimeField.

(** No column of a historical model computes its own value on INSERT. *)
Definition inert (f : Field) : Prop :=
  is_date_or_time f = true → auto_now f = false ∧ auto_now_add f = false.


(** Every foreign key of the model has its [rel]. *)
Definition relations_declared (model : Model) : Prop :=
  Forall (fun f => isinstance_field f ForeignKey = true → is_Some (rel f)) (fields model).

(** The error of an unrecognized policy value. *)
Definition invalid_conversion : exn := Raised ValueError "Invalid key conversion type".

(** [getattr(instance, field.name)] returns the target of a foreign key. *)
Definition dereferences (instance : Instance) (field : Field) : Prop :=
  ∃ v, getattr instance (name field) = Return v.

(** The target of a foreign key is gone: dereferencing raises the
    [DoesNotExist] of the target model. *)
Definition dangling (instance : Instance) (field : Field) : Prop :=
  ∃ e r, rel field = Some r
         ∧ getattr instance (name field) = Raise e
         ∧ isinstance e (DoesNotExist (to r)) = true.

(** An instance of a model tracked by [self]: its class carries the manager
    of the historical model that [self] synthesizes for the model, every
    column can be read, dereferencing a PRESERVEd foreign key either returns
    the target or reports that it does not exist, and no column takes the
    name of the keyword [history_type]. *)
Definition tracked_instance (self : HistoricalRecords) (instance : Instance) : Prop :=
  (∃ hm, create_history_model self (_meta instance) = Return hm
         ∧ class_attrs instance !! manager_name self = Some hm)
  ∧ Forall (fun f => ∃ v, getattr instance (attname f) = Return v)
      (fields (_meta instance))
  ∧ Forall (fun f => preserved self f = true →
                     dereferences instance f ∨ dangling instance f)
      (fields (_meta instance))
  ∧ Forall (fun f => attname f ≠ "history_type") (fields (_meta instance)).

(** Every PRESERVEd foreign key dereferences. *)
Definition resolves (self : HistoricalRecords) (instance : Instance) : Prop :=
  Forall (fun f => preserved self f = true → dereferences instance f)
    (fields (_meta instance)).

(** Some PRESERVEd foreign key has lost its target. *)
Definition has_dangling (self : HistoricalRecords) (instance : Instance) : Prop :=
  Exists (fun f => preserved self f = true ∧ dangling instance f)
    (fields (_meta instance)).

(** The current value of the column [a] of an instance. *)
Definition captured (instance : Instance) (a : string) : option value :=
  if bool_decide (a ∈ attname <$> fields (_meta instance))
  then match getattr instance a with
       | Return v => Some v
       | Raise _ => None
       end
  else None.

(** The store after one row is added to the table [n]. *)
Definition insert_row (n : string) (row : HistoricalRow) (st : Store) : Store :=
  mkStore (<[n := row :: table n st]> (tables st)) (clock st).


Definition instance_of (s : signal) : Instance :=
  match s with
  | PostSave instance _ => instance
  | PostDelete instance => instance
  end.

(** The operation marker of the row a notification asks for. *)
Definition marker (s : signal) : string :=
  match s with
  | PostSave _ true => "+"
  | PostSave _ false => "~"
  | PostDelete _ => "-"
  end.


(** The row that holds the dictionary [attrs], written with the marker
    [type] at the time of the clock. *)
Definition snapshot_row (n : string) (type : string) (attrs : gmap string value)
    (st : Store) : HistoricalRow :=
  mkRow (next_history_id (table n st)) (clock st) type attrs.

(** The effects of [finalize] that do not wait: the two handlers are
    connected. *)
Definition hook_actions (self : HistoricalRecords) (sender : Model) : list Action :=
  [Connected "post_save" (oid self) (object_name sender);
   Connected "post_delete" (oid self) (object_name sender)].

(** The effects of [_finalize], in the order of its statements. *)
Definition finalize_actions (self : HistoricalRecords) (sender : Model) (hm : HistoryModel)
    : list Action :=
  [CreatedHistoryModel (hm_name hm);
   SetDescriptor (object_name sender) (manager_name self);
   CalledMonkeyPatchNameMap (object_name sender)]
  ++ (if add_history_properties self
      then [CalledMonkeyPatchHistoryProperties (object_name sender)]
      else []).

(** The targets of the foreign keys [deps]. *)
Definition targets_of (deps : list Field) : list string :=
  omap (fun f => to <$> rel f) deps.

(** The closure [operation] of a call of [finalize] is still to be called
    [todo] times by the loop of [finalize] and once for each of the targets
    [p] it waits for; its cell holds the sum; the steps of [_finalize] are in
    the log after [base] when the sum is zero, and not before. *)
Definition waiting_for (operation : Callback) (count todo : nat) (p : list string)
    (base steps : list Action) (w : World) : Prop :=
  pending_lookups w = (fun t => (t, operation)) <$> p
  ∧ cells w !! count = Some (Z.of_nat (todo + List.length p))
  ∧ log w = base ++ (if bool_decide (todo + List.length p = 0)%nat then steps else []).


(** The subscriptions and the reported errors are the same in both
    states. *)
Definition same_subscriptions (w w' : World) : Prop :=
  post_save_receivers w' = post_save_receivers w
  ∧ post_delete_receivers w' = post_delete_receivers w
  ∧ class_prepared w' = class_prepared w
  ∧ app_errors w' = app_errors w.

(** The error reported for a second declaration on a model. *)
Definition duplicate_declaration : string :=
  "Models cannot have more than one HistoricalRecords field.".

(** The receiver that the declaration [d] connects for [cls]. *)
Definition receiver_of (m : Method) (cls : Model) (d : HistoricalRecords * string)
    : Receiver :=
  mkReceiver (set_manager_name d.2 d.1) m (object_name cls).

Definition declaration_oid (d : HistoricalRecords * string) : nat := oid d.1.

(** The entry of the history relation of [cls] in a name map. *)
Definition history_entry (cls : Model) (hm : HistoryModel) (p : Field) : Entry :=
  mkEntry (RelatedObject (object_name cls) (hm_name hm) (get_attname p)) None false false.

(** The result is a value; the value of a result, [d] when it raised. *)
Definition is_Return {A} (r : result A) : bool :=
  match r with
  | Return _ => true
  | Raise _ => false
  end.

Definition value_or {A} (d : A) (r : result A) : A :=
  match r with
  | Return a => a
  | Raise _ => d
  end.

(** Every foreign key of the model has a policy the module knows: CONVERT
    (also when the policy map has no entry for the key) or PRESERVE. *)
Definition policies_valid (self : HistoricalRecords) (model : Model) : Prop :=
  Forall (fun f => isinstance_field f ForeignKey = true →
                   conversion_of self f = CONVERT ∨ conversion_of self f = PRESERVE)
    (fields model).

(** The error of a call that gets [history_type] twice. *)
Definition multiple_values : exn :=
  Raised TypeError "create() got multiple values for keyword argument 'history_type'".

(** The properties [monkey_patch_history_properties] sets on a class. *)
Definition history_properties (cls : Model) : gset (string * string) :=
  {[ (object_name cls, "created_date"); (object_name cls, "last_modified_date") ]}.

(* ===================================================================== *)
(** ** Models and instances of the test application *)
(* ===================================================================== *)

Module Fixtures.

Definition id_field : Field := set_primary_key true (plain_field AutoField "id").

Definition integer_field : Field := plain_field IntegerField "integer".

Definition characters_field : Field :=
  mkField CharField "characters" false false false false false false false None ""
    None (Some 255) [].

(** [fk = models.ForeignKey(NonversionedModel, related_name='rel_p')]. *)
Definition fk_field (owner : string) (related : option string) : Field :=
  mkField ForeignKey "fk" false false false false false false false
    (Some (mkRel "NonversionedModel" id_field related)) owner None None [].

Definition auto_now_datetime : Field :=
  mkField DateTimeField "auto_now_datetime" false true false false false true false
    None "" None None [].

Definition auto_now_add_datetime : Field :=
  mkField DateTimeField "auto_now_add_datetime" false true false false false false true
    None "" None None [].

Definition VersionedModel : Model :=
  mkModel "test_app.models" "VersionedModel"
    [id_field; integer_field; characters_field] "Options".

Definition PreserveFkToNonversionedModel : Model :=
  mkModel "test_app.models" "PreserveFkToNonversionedModel"
    [id_field; fk_field "PreserveFkToNonversionedModel" (Some "rel_p"); characters_field]
    "Options".

Definition ConvertFkToNonversionedModel : Model :=
  mkModel "test_app.models" "ConvertFkToNonversionedModel"
    [id_field; fk_field "ConvertFkToNonversionedModel" (Some "rel_c"); characters_field]
    "Options".

Definition DateFieldTestModel : Model :=
  mkModel "test_app.models" "DateFieldTestModel"
    [id_field; integer_field; auto_now_datetime; auto_now_add_datetime] "Options".

(** [history = HistoricalRecords()], and the declarations with a policy
    for [fk]. *)
Definition history : HistoricalRecords :=
  set_manager_name "history" (__init__ 1 None false).

Definition history_preserve : HistoricalRecords :=
  set_manager_name "history" (__init__ 2 (Some {[ "fk" := PRESERVE ]}) false).

Definition history_invalid : HistoricalRecords :=
  set_manager_name "history" (__init__ 3 (Some {[ "fk" := 3 ]}) false).

Definition history_model_of (self : HistoricalRecords) (model : Model) : HistoryModel :=
  match create_history_model self model with
  | Return hm => hm
  | Raise _ => mkHistoryModel "" ∅
  end.

(** An instance of [model] whose class was finalized by [self]. *)
Definition instance_with (self : HistoricalRecords) (model : Model)
    (attributes : list (string * result value)) : Instance :=
  mkInstance model {[ manager_name self := history_model_of self model ]}
    (list_to_map attributes).

Definition target_present : result value := Return (VObj "NonversionedModel" 7).

Definition target_gone : result value :=
  Raise (Raised (DoesNotExist "NonversionedModel")
           "NonversionedModel matching query does not exist.").

(** An instance of [PreserveFkToNonversionedModel] that refers to the
    target 7, with what dereferencing [fk] does. *)
Definition referring (target : result value) (characters : string) : Instance :=
  instance_with history_preserve PreserveFkToNonversionedModel
    [("id", Return (VInt 1)); ("fk_id", Return (VInt 7)); ("fk", target);
     ("characters", Return (VStr characters))].


(** An instance of [DateFieldTestModel] created at time 10 and last saved
    at time [saved]. *)
Definition dated (integer saved : Z) : Instance :=
  instance_with history DateFieldTestModel
    [("id", Return (VInt 1)); ("integer", Return (VInt integer));
     ("auto_now_datetime", Return (VTime saved));
     ("auto_now_add_datetime", Return (VTime 10))].

Definition empty_store : Store := mkStore ∅ 0.

(** A store that refuses every row with an integrity error of its own. *)
Definition constraint_violation : exn := Raised IntegrityError "constraint failed".

Definition refuse_all : string → list HistoricalRow → HistoricalRow → option exn :=
  fun _ _ _ => Some constraint_violation.

(** A second tracked model, declared with [log = HistoricalRecords()], and
    a second declaration for [VersionedModel]. *)
Definition AuditedModel : Model :=
  mkModel "test_app.models" "AuditedModel" [id_field; characters_field] "Options".

Definition log_declaration : HistoricalRecords := __init__ 4 None false.

Definition second_declaration : HistoricalRecords := __init__ 5 None false.

(** The map the ORM builds from the fields of a model alone. *)
Definition orm_fields (m : Model) : gmap string Entry :=
  list_to_map ((fun f => (name f, mkEntry (OrmObject (name f)) None true false)) <$> fields m).

(** An instance of [ConvertFkToNonversionedModel] that refers to the
    target 7, with what dereferencing [fk] would do. *)
Definition converting (target : result value) (characters : string) : Instance :=
  instance_with history ConvertFkToNonversionedModel
    [("id", Return (VInt 1)); ("fk_id", Return (VInt 7)); ("fk", target);
     ("characters", Return (VStr characters))].

(** A model with a column that takes the name of a bookkeeping column. *)
Definition TypedModel : Model :=
  mkModel "test_app.models" "TypedModel"
    [id_field; plain_field CharField "history_type"] "Options".

Definition typed : Instance :=
  instance_with history TypedModel
    [("id", Return (VInt 1)); ("history_type", Return (VStr "x"))].

(** A model that declares, after its foreign key [fk], a column of its own
    under the name the converted key takes. *)
Definition ClashingModel : Model :=
  mkModel "test_app.models" "ClashingModel"
    [id_field; fk_field "ClashingModel" None; plain_field IntegerField "fk_id"] "Options".

(** What dereferencing does when the connection to the store is lost. *)
Definition connection_lost : exn := Raised DatabaseError "server closed the connection".

(** An instance of a class that the declaration never finalized. *)
Definition unprepared : Instance :=
  mkInstance VersionedModel ∅
    (list_to_map [("id", Return (VInt 1)); ("integer", Return (VInt 0));
                  ("characters", Return (VStr ""))]).

End Fixtures.
(* ===================================================================== *)
(** * Verification *)
(* ===================================================================== *)

(** ** Classes of exceptions *)

Lemma issubclass_refl c : issubclass c c = true.
Proof. unfold issubclass. simpl. rewrite bool_decide_eq_true_2; done. Qed.

Lemma isinstance_wrapped c e : isinstance (Wrapped c e) c = true.
Proof. apply issubclass_refl. Qed.

Lemma historical_is_integrity_error e :
  isinstance (Wrapped HistoricalIntegrityError e) IntegrityError = true.
Proof. reflexivity. Qed.

(** ** The transformation of fields *)

Lemma copy_field_plain self field :
  isinstance_field field ForeignKey = false →
  copy_field self field = Return (finish field).
Proof. intros H. unfold copy_field. rewrite H. reflexivity. Qed.

Lemma copy_field_convert self field r :
  isinstance_field field ForeignKey = true →
  conversion_of self field = CONVERT →
  rel field = Some r →
  copy_field self field =
    Return (finish (set_name (get_attname field)
                      (set_blank (blank field) (set_null (null field) (to_pk r))))).
Proof.
  intros Hfk Hc Hr. unfold copy_field, conversion_of in *.
  rewrite Hfk, Hc, Hr. reflexivity.
Qed.

Lemma copy_field_preserve self field r :
  isinstance_field field ForeignKey = true →
  conversion_of self field = PRESERVE →
  rel field = Some r →
  copy_field self field =
    Return (finish (set_rel
                      (Some (set_related_name
                               (Some (or_else (related_name r) (lower (opts field))
                                      +:+ "_historical")) r))
                      field)).
Proof.
  intros Hfk Hc Hr. unfold copy_field, conversion_of in *.
  rewrite Hfk, Hc, Hr. reflexivity.
Qed.

Lemma copy_field_invalid self field :
  isinstance_field field ForeignKey = true →
  conversion_of self field ≠ CONVERT →
  conversion_of self field ≠ PRESERVE →
  copy_field self field = Raise (Raised ValueError "Invalid key conversion type").
Proof.
  intros Hfk Hc Hp. unfold copy_field, conversion_of in *. rewrite Hfk. simpl.
  rewrite !bool_decide_eq_false_2 by done. reflexivity.
Qed.

(** Whatever field comes out of [copy_field] went through [finish]. *)
Lemma copy_field_finished self field field' :
  copy_field self field = Return field' → ∃ g, field' = finish g.
Proof.
  unfold copy_field. intros H.
  destruct (isinstance_field field ForeignKey).
  - destruct (bool_decide _).
    + destruct (rel field); [|discriminate]. simpl in H. injection H as <-. eauto.
    + destruct (bool_decide _); [|discriminate].
      destruct (rel field); [|discriminate]. simpl in H. injection H as <-. eauto.
  - simpl in H. injection H as <-. eauto.
Qed.

Lemma finish_class g :
  __class__ (finish g) =
    if isinstance_field g AutoField then IntegerField else __class__ g.
Proof.
  unfold finish. destruct (isinstance_field g AutoField); simpl;
    repeat (match goal with |- context [if ?b then _ else _] => destruct b end; simpl);
    reflexivity.
Qed.

Lemma finish_strips_auto g :
  is_date_or_time (finish g) = true →
  auto_now (finish g) = false ∧ auto_now_add (finish g) = false.
Proof.
  unfold is_date_or_time, isinstance_field. rewrite finish_class.
  unfold finish, isinstance_field.
  destruct (field_issubclass (__class__ g) AutoField) eqn:Ha; simpl.
  - discriminate.
  - intros Hd. rewrite Hd. simpl.
    match goal with |- context [if ?b then _ else _] => destruct b end; simpl; done.
Qed.

Lemma copy_field_inert self field field' :
  copy_field self field = Return field' → inert field'.
Proof. intros [g ->]%copy_field_finished. exact (finish_strips_auto g). Qed.

Lemma copy_fields_loop_inert self todo acc attrs :
  copy_fields_loop self todo acc = Return attrs →
  (∀ k f, acc !! k = Some (AField f) → inert f) →
  ∀ k f, attrs !! k = Some (AField f) → inert f.
Proof.
  revert acc. induction todo as [|field todo IH]; intros acc H Hacc; simpl in H.
  - injection H as <-. exact Hacc.
  - destruct (copy_field self field) as [field'|] eqn:E; simpl in H; [|discriminate].
    eapply IH; [exact H|]. intros k f Hk.
    destruct (decide (name field' = k)) as [<-|Hne].
    + rewrite lookup_insert_eq in Hk. injection Hk as <-.
      eapply copy_field_inert; eauto.
    + rewrite lookup_insert_ne in Hk by done. eauto.
Qed.

Lemma copy_fields_inert self model attrs :
  copy_fields self model = Return attrs →
  ∀ k f, attrs !! k = Some (AField f) → inert f.
Proof.
  intros H. eapply copy_fields_loop_inert; [exact H|].
  intros k f Hk. destruct (decide (k = "__module__")) as [->|Hne].
  - rewrite lookup_singleton_eq in Hk. discriminate.
  - rewrite lookup_singleton_ne in Hk by done. discriminate.
Qed.

Lemma finish_name g : name (finish g) = name g.
Proof.
  unfold finish.
  repeat (match goal with |- context [if ?b then _ else _] => destruct b end; simpl);
    reflexivity.
Qed.

Lemma finish_rel g : rel (finish g) = rel g.
Proof.
  unfold finish.
  repeat (match goal with |- context [if ?b then _ else _] => destruct b end; simpl);
    reflexivity.
Qed.

Lemma foreign_key_not_auto c :
  field_issubclass c ForeignKey = true → field_issubclass c AutoField = false.
Proof. destruct c; vm_compute; congruence. Qed.

Lemma finish_foreign_key g :
  isinstance_field g ForeignKey = true → isinstance_field (finish g) ForeignKey = true.
Proof.
  unfold isinstance_field. intros H. rewrite finish_class.
  unfold isinstance_field. rewrite (foreign_key_not_auto _ H). exact H.
Qed.

(** The dictionary built by the loop holds, under a name, the copy every
    field stored under that name agrees on. *)
Lemma copy_fields_loop_lookup self k x todo acc attrs :
  copy_fields_loop self todo acc = Return attrs →
  (∀ g g', g ∈ todo → copy_field self g = Return g' → name g' = k → g' = x) →
  (∃ g, g ∈ todo ∧ copy_field self g = Return x ∧ name x = k) ∨ acc !! k = Some (AField x) →
  attrs !! k = Some (AField x).
Proof.
  revert acc. induction todo as [|field todo IH]; intros acc H Huniq Hsrc; simpl in H.
  - injection H as <-. destruct Hsrc as [(g & Hg & _)|]; [|done].
    by apply elem_of_nil in Hg.
  - destruct (copy_field self field) as [field'|] eqn:E; simpl in H; [|discriminate].
    eapply IH; [exact H| |].
    + intros g g' Hg. apply Huniq. by right.
    + destruct (decide (name field' = k)) as [Hk|Hk].
      * right. rewrite <- Hk, lookup_insert_eq. f_equal. f_equal.
        eapply Huniq; [left|exact E|exact Hk].
      * destruct Hsrc as [(g & Hg & Hc & Hn)|Hacc].
        -- apply elem_of_cons in Hg as [->|Hg].
           ++ rewrite E in Hc. injection Hc as ->. contradiction.
           ++ left. eauto.
        -- right. by rewrite lookup_insert_ne.
Qed.

(** C7 (amended). A foreign key under PRESERVE is copied as a foreign key
    to the same target, stored under the same name, and its reverse name is
    the declared [related_name] when the relation has one, otherwise the
    lower-case name of the model in [field.opts], followed by
    [_historical]; this copy is the entry of the dictionary of [copy_fields]
    when no other field is stored under that name. *)
Theorem preserved_key_stays_a_relation self model field r attrs :
  isinstance_field field ForeignKey = true →
  key_conversions self !! name field = Some PRESERVE →
  rel field = Some r →
  field ∈ fields model →
  copy_fields self model = Return attrs →
  (∀ g g', g ∈ fields model → copy_field self g = Return g' →
           name g' = name field → g = field) →
  ∃ field',
    attrs !! name field = Some (AField field')
    ∧ copy_field self field = Return field'
    ∧ isinstance_field field' ForeignKey = true
    ∧ name field' = name field
    ∧ rel field' =
        Some (mkRel (to r) (to_pk r)
                (Some (or_else (related_name r) (lower (opts field)) +:+ "_historical"))).
Proof.
  intros Hfk Hp Hr Hin Hcopy Huniq.
  assert (Hc : conversion_of self field = PRESERVE) by (unfold conversion_of; by rewrite Hp).
  pose proof (copy_field_preserve self field r Hfk Hc Hr) as E.
  eexists. split; [|split; [exact E|]].
  - eapply copy_fields_loop_lookup; [exact Hcopy| |].
    + intros g g' Hg Hg' Hn. pose proof (Huniq g g' Hg Hg' Hn) as ->.
      rewrite E in Hg'. by injection Hg'.
    + left. exists field. rewrite finish_name. done.
  - rewrite finish_name, finish_rel. simpl. split; [|done].
    apply finish_foreign_key. exact Hfk.
Qed.

Lemma copy_field_valid_or_value_error self field :
  (isinstance_field field ForeignKey = true → is_Some (rel field)) →
  (∃ field', copy_field self field = Return field')
  ∨ copy_field self field = Raise invalid_conversion.
Proof.
  intros Hrel. destruct (isinstance_field field ForeignKey) eqn:Hfk.
  - destruct (Hrel eq_refl) as [r Hr].
    destruct (decide (conversion_of self field = CONVERT)) as [Hc|Hc].
    { left. eexists. by apply copy_field_convert. }
    destruct (decide (conversion_of self field = PRESERVE)) as [Hp|Hp].
    { left. eexists. by apply copy_field_preserve. }
    right. by apply copy_field_invalid.
  - left. eexists. by apply copy_field_plain.
Qed.

Lemma copy_fields_loop_invalid self field todo acc :
  Forall (fun f => isinstance_field f ForeignKey = true → is_Some (rel f)) todo →
  field ∈ todo →
  copy_field self field = Raise invalid_conversion →
  copy_fields_loop self todo acc = Raise invalid_conversion.
Proof.
  revert acc. induction todo as [|g todo IH]; intros acc Hrel Hin Hbad.
  - by apply elem_of_nil in Hin.
  - apply Forall_cons in Hrel as [Hg Hrel]. simpl.
    destruct (copy_field_valid_or_value_error self g Hg) as [[g' E]|E]; rewrite E; simpl.
    + apply elem_of_cons in Hin as [->|Hin]; [congruence|]. by apply IH.
    + reflexivity.
Qed.

(** C9 (amended). A policy value other than PRESERVE and CONVERT on a
    foreign key of the model makes [copy_fields] raise
    [ValueError('Invalid key conversion type')]: the message is this constant
    and names neither the model nor the field. The error leaves
    [create_history_model] and [_finalize], which changes nothing: no
    historical model is built and none is attached. *)
Theorem unrecognized_policy_is_a_value_error self model field c :
  relations_declared model →
  field ∈ fields model →
  isinstance_field field ForeignKey = true →
  key_conversions self !! name field = Some c →
  c ≠ PRESERVE → c ≠ CONVERT →
  copy_fields self model = Raise invalid_conversion
  ∧ create_history_model self model = Raise invalid_conversion
  ∧ ∀ w, _finalize self model w = (Raise invalid_conversion, w).
Proof.
  intros Hrel Hin Hfk Hc Hp Hv.
  assert (E : copy_fields self model = Raise invalid_conversion).
  { eapply copy_fields_loop_invalid; [exact Hrel|exact Hin|].
    apply copy_field_invalid; [done| |]; unfold conversion_of; rewrite Hc; done. }
  assert (E' : create_history_model self model = Raise invalid_conversion).
  { unfold create_history_model. rewrite E. reflexivity. }
  split; [exact E|]. split; [exact E'|].
  intros w. unfold _finalize, ebind, lift. rewrite E'. reflexivity.
Qed.

(** ** The capture of a snapshot *)

Lemma pre_save_inert f add now v : inert f → pre_save f add now v = v.
Proof.
  unfold inert, pre_save, is_date_or_time. intros H.
  destruct (isinstance_field f DateField || isinstance_field f TimeField); [|done].
  destruct (H eq_refl) as [-> ->]. reflexivity.
Qed.

Lemma elem_of_columns hm f :
  f ∈ columns hm → ∃ k, hm_attrs hm !! k = Some (AField f).
Proof.
  unfold columns. intros ([k a] & Hin & Hcol)%list_elem_of_omap.
  apply elem_of_map_to_list in Hin. exists k. simpl in Hcol.
  destruct a; simpl in Hcol; try discriminate. by injection Hcol as ->.
Qed.

Lemma extra_fields_inert self model k f :
  get_extra_fields self model !! k = Some (AField f) → inert f.
Proof.
  unfold get_extra_fields. intros H.
  repeat (apply lookup_insert_Some in H as [[_ H]|[_ H]];
          [first [discriminate
                 | injection H as <-; unfold inert; vm_compute; intuition congruence]|]).
  discriminate.
Qed.

Lemma history_model_inert self model hm :
  create_history_model self model = Return hm →
  ∀ k f, hm_attrs hm !! k = Some (AField f) → inert f.
Proof.
  unfold create_history_model. intros H.
  destruct (copy_fields self model) as [attrs|] eqn:E; simpl in H; [|discriminate].
  injection H as <-. simpl. intros k f Hk. unfold update in Hk.
  apply lookup_union_Some_raw in Hk as [Hk|[_ Hk]].
  { apply lookup_singleton_Some in Hk as [_ Hk]. discriminate. }
  apply lookup_union_Some_raw in Hk as [Hk|[_ Hk]].
  - eapply extra_fields_inert; eauto.
  - eapply copy_fields_inert; eauto.
Qed.

Lemma columns_inert self model hm :
  create_history_model self model = Return hm → Forall inert (columns hm).
Proof.
  intros H. apply Forall_forall. intros f [k Hk]%elem_of_columns.
  eapply history_model_inert; eauto.
Qed.

Lemma stored_value_inert hm now a v :
  Forall inert (columns hm) → stored_value hm now a v = v.
Proof.
  intros H. unfold stored_value.
  destruct (List.find _ (columns hm)) as [f|] eqn:E; [|done].
  apply find_some in E as [Hin _]. apply list_elem_of_In in Hin.
  apply pre_save_inert. rewrite Forall_forall in H. by apply H.
Qed.

(** The loop over the fields, when every PRESERVEd key dereferences: the
    dictionary holds the current value of every column. *)
Lemma collect_attrs_returns self instance todo acc :
  Forall (fun f => ∃ v, getattr instance (attname f) = Return v) todo →
  Forall (fun f => preserved self f = true → dereferences instance f) todo →
  ∃ attrs,
    collect_attrs self instance todo acc = Return attrs
    ∧ ∀ a, attrs !! a =
           if bool_decide (a ∈ attname <$> todo)
           then match getattr instance a with
                | Return v => Some v
                | Raise _ => None
                end
           else acc !! a.
Proof.
  revert acc. induction todo as [|f todo IH]; intros acc Hread Hderef.
  - exists acc. split; [reflexivity|]. intros a.
    rewrite bool_decide_eq_false_2; [done|]. simpl. apply not_elem_of_nil.
  - apply Forall_cons in Hread as [[v Hv] Hread].
    apply Forall_cons in Hderef as [Hf Hderef].
    destruct (IH (<[attname f := v]> acc) Hread Hderef) as (attrs & Hattrs & Hlook).
    exists attrs. split.
    + simpl. unfold preserved, conversion_of, dereferences in Hf.
      destruct (isinstance_field f ForeignKey); simpl in *.
      * destruct (bool_decide _); simpl in *.
        -- destruct (Hf eq_refl) as [x ->]. simpl. rewrite Hv. exact Hattrs.
        -- rewrite Hv. exact Hattrs.
      * rewrite Hv. exact Hattrs.
    + intros a. rewrite Hlook. rewrite fmap_cons.
      destruct (decide (a ∈ attname <$> todo)) as [Hin|Hin].
      * rewrite !bool_decide_eq_true_2; [done| |done]. by right.
      * rewrite (bool_decide_eq_false_2 _ Hin).
        destruct (decide (a = attname f)) as [->|Hne].
        -- rewrite bool_decide_eq_true_2 by left.
           by rewrite lookup_insert_eq, Hv.
        -- rewrite bool_decide_eq_false_2.
           ++ by rewrite lookup_insert_ne.
           ++ intros [?|?]%elem_of_cons; done.
Qed.

(** The loop over the fields, when a PRESERVEd key has lost its target:
    the loop ends with [HistoricalIntegrityError(e)], where [e] is what the
    dereference raised. *)
Lemma collect_attrs_dangling self instance todo acc :
  Forall (fun f => ∃ v, getattr instance (attname f) = Return v) todo →
  Forall (fun f => preserved self f = true →
                   dereferences instance f ∨ dangling instance f) todo →
  Exists (fun f => preserved self f = true ∧ dangling instance f) todo →
  ∃ f e, f ∈ todo ∧ preserved self f = true
         ∧ getattr instance (name f) = Raise e
         ∧ collect_attrs self instance todo acc
             = Raise (Wrapped HistoricalIntegrityError e).
Proof.
  revert acc. induction todo as [|f todo IH]; intros acc Hread Hshape Hex.
  - by apply Exists_nil in Hex.
  - apply Forall_cons in Hread as [[v Hv] Hread].
    apply Forall_cons in Hshape as [Hf Hshape].
    assert (Hdangle : preserved self f = true → dangling instance f →
              ∃ e, getattr instance (name f) = Raise e
                   ∧ collect_attrs self instance (f :: todo) acc
                       = Raise (Wrapped HistoricalIntegrityError e)).
    { intros Hp (e & r & Hr & He & Hi). exists e. split; [exact He|].
      simpl. unfold preserved, conversion_of in Hp.
      apply andb_true_iff in Hp as [-> ->]. rewrite He, Hr, Hi. reflexivity. }
    assert (Hnext : (preserved self f = true → dereferences instance f) →
              Exists (fun f => preserved self f = true ∧ dangling instance f) todo →
              ∃ f' e, f' ∈ f :: todo ∧ preserved self f' = true
                      ∧ getattr instance (name f') = Raise e
                      ∧ collect_attrs self instance (f :: todo) acc
                          = Raise (Wrapped HistoricalIntegrityError e)).
    { intros Hd Hex'.
      destruct (IH (<[attname f := v]> acc) Hread Hshape Hex')
        as (f' & e & Hin & Hp & He & Hc).
      exists f', e. split; [by right|]. split; [exact Hp|]. split; [exact He|].
      simpl. unfold preserved, conversion_of, dereferences in Hd.
      destruct (isinstance_field f ForeignKey); simpl in *.
      - destruct (bool_decide _); simpl in *.
        + destruct (Hd eq_refl) as [x ->]. simpl. rewrite Hv. exact Hc.
        + rewrite Hv. exact Hc.
      - rewrite Hv. exact Hc. }
    apply Exists_cons in Hex as [[Hp Hd]|Hex].
    + destruct (Hdangle Hp Hd) as (e & He & Hc). exists f, e.
      split; [left|]. done.
    + destruct (preserved self f) eqn:Hp.
      * destruct (Hf eq_refl) as [Hd|Hd].
        -- apply Hnext; [done|exact Hex].
        -- destruct (Hdangle eq_refl Hd) as (e & He & Hc). exists f, e.
           split; [left|]. done.
      * apply Hnext; [discriminate|exact Hex].
Qed.

Lemma collect_attrs_lookup self instance todo acc attrs :
  collect_attrs self instance todo acc = Return attrs →
  ∀ a, attrs !! a =
       if bool_decide (a ∈ attname <$> todo)
       then match getattr instance a with
            | Return v => Some v
            | Raise _ => None
            end
       else acc !! a.
Proof.
  revert acc. induction todo as [|f todo IH]; intros acc H a; simpl in H.
  - injection H as <-. rewrite bool_decide_eq_false_2; [done|]. simpl. apply not_elem_of_nil.
  - match type of H with (Py.bind ?c _ = _) => destruct c; simpl in H; [|discriminate] end.
    destruct (getattr instance (attname f)) as [v|] eqn:Hv; simpl in H; [|discriminate].
    rewrite (IH _ H a). rewrite fmap_cons.
    destruct (decide (a ∈ attname <$> todo)) as [Hin|Hin].
    + rewrite !bool_decide_eq_true_2; [done| |done]. by right.
    + rewrite (bool_decide_eq_false_2 _ Hin).
      destruct (decide (a = attname f)) as [->|Hne].
      * rewrite bool_decide_eq_true_2 by left. by rewrite lookup_insert_eq, Hv.
      * rewrite bool_decide_eq_false_2.
        -- by rewrite lookup_insert_ne.
        -- intros [?|?]%elem_of_cons; done.
Qed.

Lemma collect_attrs_captured self instance attrs :
  collect_attrs self instance (fields (_meta instance)) ∅ = Return attrs →
  ∀ a, attrs !! a = captured instance a.
Proof.
  intros H a. rewrite (collect_attrs_lookup _ _ _ _ _ H a). unfold captured.
  destruct (bool_decide _); [done|]. apply lookup_empty.
Qed.

Lemma capture_unfold db_error self instance type st hm :
  class_attrs instance !! manager_name self = Some hm →
  create_historical_record db_error self instance type st =
    match collect_attrs self instance (fields (_meta instance)) ∅ with
    | Return attrs => call_create db_error hm type attrs st
    | Raise e => (Raise e, st)
    end.
Proof.
  intros H. unfold create_historical_record, ebind, lift, getattr_manager.
  rewrite H. reflexivity.
Qed.

Lemma call_create_row db_error hm type attrs st :
  attrs !! "history_type" = None →
  Forall inert (columns hm) →
  call_create db_error hm type attrs st =
    match db_error (hm_name hm) (table (hm_name hm) st)
            (snapshot_row (hm_name hm) type attrs st) with
    | Some e => (Raise e, st)
    | None => (Return tt, insert_row (hm_name hm) (snapshot_row (hm_name hm) type attrs st) st)
    end.
Proof.
  intros Hkw Hinert. unfold call_create.
  rewrite bool_decide_eq_false_2 by (rewrite Hkw; apply is_Some_None).
  unfold manager_create, snapshot_row, insert_row.
  assert (E : map_imap (fun a v => Some (stored_value hm (clock st) a v)) attrs = attrs).
  { apply map_eq. intros a. rewrite map_lookup_imap.
    destruct (attrs !! a); simpl; [|done]. by rewrite stored_value_inert. }
  rewrite E. reflexivity.
Qed.

Lemma captured_keyword self instance :
  tracked_instance self instance → captured instance "history_type" = None.
Proof.
  intros (_ & _ & _ & Hkw). unfold captured.
  rewrite bool_decide_eq_false_2; [done|].
  intros (f & Hf & Hin)%list_elem_of_fmap.
  rewrite Forall_forall in Hkw. by eapply Hkw.
Qed.

(** The two outcomes of a capture: an exception and the store as it was,
    or one more row, holding the marker, the time of the clock and the current
    value of every column. *)
Lemma capture_cases db_error self instance type st hm :
  tracked_instance self instance →
  class_attrs instance !! manager_name self = Some hm →
  (∃ e, create_historical_record db_error self instance type st = (Raise e, st))
  ∨ (∃ row,
       create_historical_record db_error self instance type st
         = (Return tt, insert_row (hm_name hm) row st)
       ∧ history_type row = type
       ∧ history_date row = clock st
       ∧ ∀ a, row_values row !! a = captured instance a).
Proof.
  intros Ht Hm. rewrite (capture_unfold _ _ _ _ _ _ Hm).
  destruct (collect_attrs _ _ _ _) as [attrs|e] eqn:E; [|left; eauto].
  pose proof (collect_attrs_captured _ _ _ E) as Hcap.
  destruct Ht as ((hm' & Hhm & Hm') & Ht). rewrite Hm in Hm'. injection Hm' as <-.
  rewrite call_create_row.
  - destruct (db_error _ _ _); [left; eauto|]. right. eexists. split; [reflexivity|].
    simpl. done.
  - rewrite Hcap. eapply captured_keyword. split; eauto.
  - eapply columns_inert; eauto.
Qed.


Lemma capture_signals db_error self instance type st :
  tracked_instance self instance →
  has_dangling self instance →
  ∃ f e, f ∈ fields (_meta instance) ∧ preserved self f = true
         ∧ getattr instance (name f) = Raise e
         ∧ create_historical_record db_error self instance type st
             = (Raise (Wrapped HistoricalIntegrityError e), st).
Proof.
  intros ((hm & _ & Hm) & Hread & Hshape & _) Hex.
  destruct (collect_attrs_dangling self instance _ ∅ Hread Hshape Hex)
    as (f & e & Hin & Hp & He & Hc).
  exists f, e. rewrite (capture_unfold _ _ _ _ _ _ Hm), Hc. done.
Qed.


(** The handler of deletions drops the integrity violation. *)
Lemma integrity_violation_swallowed db_error self instance st :
  tracked_instance self instance →
  has_dangling self instance →
  post_delete db_error self instance st = (Return tt, st)
  ∧ ∀ created, ∃ e,
      post_save db_error self instance created st
        = (Raise (Wrapped HistoricalIntegrityError e), st).
Proof.
  intros Ht Hex. split.
  - destruct (capture_signals db_error self instance "-" st Ht Hex)
      as (f & e & _ & _ & _ & Hrun).
    unfold post_delete, try_except. rewrite Hrun, isinstance_wrapped. reflexivity.
  - intros created.
    destruct (capture_signals db_error self instance (and_or created "+" "~") st Ht Hex)
      as (f & e & _ & _ & _ & Hrun).
    exists e. exact Hrun.
Qed.

(** C2. When a PRESERVEd foreign key of a tracked instance has lost its
    target, [post_delete] returns normally and leaves the store as it was,
    while [post_save], for a creation and for an update, raises
    [HistoricalIntegrityError] to its caller. *)
Theorem integrity_violation_is_swallowed_on_delete_only db_error self instance st :
  tracked_instance self instance →
  has_dangling self instance →
  post_delete db_error self instance st = (Return tt, st)
  ∧ ∀ created, ∃ e,
      post_save db_error self instance created st
        = (Raise (Wrapped HistoricalIntegrityError e), st).
Proof. exact (integrity_violation_swallowed db_error self instance st). Qed.

(** C10. [HistoricalIntegrityError] is a proper subclass of the store's
    [IntegrityError], and [post_delete] handles exactly the exceptions of
    that subclass: whatever the capture raises that is an instance of it is
    dropped, and every other exception, an [IntegrityError] of the store
    among them, reaches the caller as it was raised, with the store as the
    capture left it. *)
Theorem post_delete_suppresses_exactly_the_subclass db_error self instance st e st' :
  create_historical_record db_error self instance "-" st = (Raise e, st') →
  (issubclass HistoricalIntegrityError IntegrityError = true
   ∧ issubclass IntegrityError HistoricalIntegrityError = false
   ∧ HistoricalIntegrityError ≠ IntegrityError)
  ∧ (isinstance e HistoricalIntegrityError = true →
     post_delete db_error self instance st = (Return tt, st'))
  ∧ (isinstance e HistoricalIntegrityError = false →
     post_delete db_error self instance st = (Raise e, st'))
  ∧ (class_of e = IntegrityError →
     post_delete db_error self instance st = (Raise e, st')).
Proof.
  intros Hrun. split; [by vm_compute|].
  unfold post_delete, try_except. rewrite Hrun. split; [|split].
  - by intros ->.
  - by intros ->.
  - intros Hc. unfold isinstance. rewrite Hc. reflexivity.
Qed.

(** ** Runs of notifications *)

Lemma table_insert_row n row st : table n (insert_row n row st) = row :: table n st.
Proof. unfold table at 1, insert_row. simpl. by rewrite lookup_insert_eq. Qed.

Lemma table_insert_row_ne n n' row st :
  n ≠ n' → table n' (insert_row n row st) = table n' st.
Proof. intros H. unfold table, insert_row. simpl. by rewrite lookup_insert_ne. Qed.

Lemma table_set_clock n t st : table n (set_clock t st) = table n st.
Proof. reflexivity. Qed.

Lemma marker_post_save created : and_or created "+" "~" = if created then "+" else "~".
Proof. by destruct created. Qed.

(** The three outcomes of a handler on a tracked instance: one more row
    with the marker of the notification, nothing at all (the integrity
    violation swallowed by [post_delete]), or an exception with the store as
    it was. *)
Lemma handle_cases db_error self s st hm :
  tracked_instance self (instance_of s) →
  class_attrs (instance_of s) !! manager_name self = Some hm →
  (∃ row,
     handle db_error self s st = (Return tt, insert_row (hm_name hm) row st)
     ∧ history_type row = marker s
     ∧ history_date row = clock st
     ∧ ∀ a, row_values row !! a = captured (instance_of s) a)
  ∨ handle db_error self s st = (Return tt, st)
  ∨ ∃ e, handle db_error self s st = (Raise e, st).
Proof.
  intros Ht Hm. destruct s as [instance created|instance]; simpl in *.
  - unfold post_save.
    destruct (capture_cases db_error self instance (and_or created "+" "~") st hm Ht Hm)
      as [[e He]|(row & Hrun & Hty & Hrest)].
    + right. right. eauto.
    + left. exists row. split; [exact Hrun|]. split; [|exact Hrest].
      rewrite Hty. by destruct created.
  - unfold post_delete, try_except.
    destruct (capture_cases db_error self instance "-" st hm Ht Hm)
      as [[e He]|(row & Hrun & Hrest)].
    + rewrite He. destruct (isinstance e HistoricalIntegrityError); [by right; left|].
      right. right. eauto.
    + left. exists row. rewrite Hrun. done.
Qed.



(** Whatever a run does, the rows it adds hold, in a column, the value the
    instances held in that column when they were captured. *)
Lemma run_rows_hold db_error self model hm field v events st r st' :
  create_history_model self model = Return hm →
  field ∈ fields model →
  Forall (fun e => _meta (instance_of e.2) = model
                   ∧ tracked_instance self (instance_of e.2)
                   ∧ getattr (instance_of e.2) (attname field) = Return v) events →
  run db_error self events st = (r, st') →
  ∃ rows,
    table (hm_name hm) st' = rows ++ table (hm_name hm) st
    ∧ Forall (fun row => row_values row !! attname field = Some v) rows.
Proof.
  intros Hhm Hin. revert st.
  induction events as [|[t s] events IH]; intros st Hall Hrun.
  - simpl in Hrun. injection Hrun as _ <-. exists []. done.
  - apply Forall_cons in Hall as [(Hmeta & Ht & Hv) Hall]. simpl in Hmeta, Ht, Hv.
    pose proof Ht as ((hm' & Hhm' & Hm) & _).
    rewrite Hmeta, Hhm in Hhm'. injection Hhm' as <-.
    simpl in Hrun. unfold ebind in Hrun.
    destruct (handle_cases db_error self s (set_clock t st) hm Ht Hm)
      as [(row & Hh & _ & _ & Hval)|[Hh|[e Hh]]]; rewrite Hh in Hrun.
    + destruct (IH _ Hall Hrun) as (rows & Htab & Hrows).
      exists (rows ++ [row]). split.
      * rewrite Htab, table_insert_row, table_set_clock, <- app_assoc. done.
      * apply Forall_app. split; [exact Hrows|]. apply Forall_singleton.
        rewrite Hval. unfold captured. rewrite Hmeta.
        rewrite bool_decide_eq_true_2 by (apply list_elem_of_fmap; eauto).
        by rewrite Hv.
    + destruct (IH _ Hall Hrun) as (rows & Htab & Hrows).
      exists rows. by rewrite Htab, table_set_clock.
    + injection Hrun as _ <-. exists []. by rewrite table_set_clock.
Qed.


Lemma date_or_time_not_key c :
  field_issubclass c DateField || field_issubclass c TimeField = true →
  field_issubclass c ForeignKey = false ∧ field_issubclass c AutoField = false.
Proof. destruct c; vm_compute; intuition congruence. Qed.

Lemma copy_field_date_or_time self field :
  is_date_or_time field = true →
  ∃ field',
    copy_field self field = Return field'
    ∧ name field' = name field
    ∧ __class__ field' = __class__ field
    ∧ auto_now field' = false
    ∧ auto_now_add field' = false.
Proof.
  intros Hd. unfold is_date_or_time, isinstance_field in Hd.
  destruct (date_or_time_not_key _ Hd) as [Hfk Hauto].
  exists (finish field). split; [by apply copy_field_plain|].
  split; [apply finish_name|].
  assert (Hc : __class__ (finish field) = __class__ field).
  { rewrite finish_class. unfold isinstance_field. by rewrite Hauto. }
  split; [exact Hc|].
  apply finish_strips_auto. unfold is_date_or_time, isinstance_field. by rewrite Hc.
Qed.

(** C8. The copy of every date or time field of the tracked model has
    [auto_now] and [auto_now_add] switched off, and so has every date or time
    column of the historical model; the store therefore keeps, whatever the
    clock shows, the value it is given. In a run of notifications for
    instances that hold the value [v] in a column at each capture, every row
    the run adds holds [v] in that column: for a field set on creation only,
    all rows hold the value of the creation. *)
Theorem shadow_rows_keep_the_captured_value
    db_error self model hm field v events st r st' :
  create_history_model self model = Return hm →
  field ∈ fields model →
  Forall (fun e => _meta (instance_of e.2) = model
                   ∧ tracked_instance self (instance_of e.2)
                   ∧ getattr (instance_of e.2) (attname field) = Return v) events →
  run db_error self events st = (r, st') →
  (∀ f, f ∈ fields model → is_date_or_time f = true →
     ∃ f', copy_field self f = Return f'
           ∧ name f' = name f
           ∧ __class__ f' = __class__ f
           ∧ auto_now f' = false
           ∧ auto_now_add f' = false)
  ∧ (∀ f, f ∈ columns hm → is_date_or_time f = true →
       auto_now f = false ∧ auto_now_add f = false)
  ∧ (∀ now a x, stored_value hm now a x = x)
  ∧ ∃ rows,
      table (hm_name hm) st' = rows ++ table (hm_name hm) st
      ∧ Forall (fun row => row_values row !! attname field = Some v) rows.
Proof.
  intros Hhm Hin Hall Hrun.
  pose proof (columns_inert self model hm Hhm) as Hinert.
  split; [|split; [|split]].
  - intros f _ Hd. by apply copy_field_date_or_time.
  - intros f Hf. rewrite Forall_forall in Hinert. exact (Hinert f Hf).
  - intros now a x. by apply stored_value_inert.
  - eapply run_rows_hold; eauto.
Qed.

(** A column that kept [auto_now_add] would store the clock instead. *)
Example auto_now_add_kept_would_store_the_clock :
  pre_save Fixtures.auto_now_add_datetime true 30 (VTime 10) = VTime 30.
Proof. reflexivity. Qed.

(** ** The test application *)

Import Fixtures.

(** Evaluation of a closed run: the result is checked by computation, the
    state reached is named by the run itself. *)
Lemma result_returned {A} (d : A) (r : result A) :
  is_Return r = true → r = Return (value_or d r).
Proof. by destruct r. Qed.

Lemma run_returned {S} (p : result unit * S) :
  is_Return p.1 = true → p = (Return tt, p.2).
Proof. by destruct p as [[[]|e] st]. Qed.

Lemma run_returned_value {S A} (d : A) (p : result A * S) :
  is_Return p.1 = true → p = (Return (value_or d p.1), p.2).
Proof. by destruct p as [[a|e] st]. Qed.

(** Tactics that check the fixtures by evaluation, field by field. *)
Ltac each_field tac :=
  repeat (apply Forall_cons; split; [tac|]); by apply Forall_nil.

Ltac tracked_fixture :=
  unfold tracked_instance; split; [|split; [|split]];
  [ vm_compute; eexists; split; reflexivity
  | each_field ltac:(vm_compute; eexists; reflexivity)
  | each_field ltac:(intros Hp;
      first [ by vm_compute in Hp
            | left; vm_compute; eexists; reflexivity
            | right; vm_compute; do 2 eexists; repeat split; reflexivity ])
  | each_field ltac:(by vm_compute) ].

Ltac resolving_fixture :=
  unfold resolves;
  each_field ltac:(intros Hp;
    first [ by vm_compute in Hp | vm_compute; eexists; reflexivity ]).


Lemma referring_tracked target characters :
  target = target_present ∨ target = target_gone →
  tracked_instance history_preserve (referring target characters).
Proof. intros [-> | ->]; tracked_fixture. Qed.


Lemma referring_gone_dangles characters :
  has_dangling history_preserve (referring target_gone characters).
Proof.
  unfold has_dangling. apply Exists_cons_tl, Exists_cons_hd.
  split; [by vm_compute|]. vm_compute. do 2 eexists. repeat split; reflexivity.
Qed.

Lemma history_model_of_preserve :
  create_history_model history_preserve PreserveFkToNonversionedModel
  = Return (history_model_of history_preserve PreserveFkToNonversionedModel).
Proof. by vm_compute. Qed.



(** C2 at the test application. *)
Lemma integrity_violation_is_swallowed_on_delete_only_witness :
  tracked_instance history_preserve (referring target_gone "preserved_nv_9")
  ∧ has_dangling history_preserve (referring target_gone "preserved_nv_9")
  ∧ post_delete accept_all history_preserve (referring target_gone "preserved_nv_9")
      empty_store = (Return tt, empty_store)
  ∧ ∃ e, post_save accept_all history_preserve (referring target_gone "preserved_nv_9")
           false empty_store
         = (Raise (Wrapped HistoricalIntegrityError e), empty_store).
Proof.
  assert (Hg := referring_tracked target_gone "preserved_nv_9" (or_intror eq_refl)).
  assert (Hd := referring_gone_dangles "preserved_nv_9").
  split; [exact Hg|]. split; [exact Hd|].
  destruct (integrity_violation_is_swallowed_on_delete_only accept_all history_preserve
              (referring target_gone "preserved_nv_9") empty_store Hg Hd) as [Hdel Hsave].
  split; [exact Hdel|]. exact (Hsave false).
Defined.

(** C10 at the test application: the store refuses the row with an
    [IntegrityError] of its own, and [post_delete] lets it through. *)
Lemma post_delete_suppresses_exactly_the_subclass_witness :
  create_historical_record refuse_all history_preserve
    (referring target_present "preserved_nv_9") "-" empty_store
    = (Raise constraint_violation, empty_store)
  ∧ post_delete refuse_all history_preserve
      (referring target_present "preserved_nv_9") empty_store
    = (Raise constraint_violation, empty_store).
Proof.
  assert (Hrun : create_historical_record refuse_all history_preserve
                   (referring target_present "preserved_nv_9") "-" empty_store
                 = (Raise constraint_violation, empty_store)) by (by vm_compute).
  split; [exact Hrun|].
  destruct (post_delete_suppresses_exactly_the_subclass refuse_all history_preserve
              (referring target_present "preserved_nv_9") empty_store
              constraint_violation empty_store Hrun) as (_ & _ & _ & Hstore).
  apply Hstore. reflexivity.
Defined.



Lemma history_model_of_versioned :
  create_history_model history VersionedModel
  = Return (history_model_of history VersionedModel).
Proof. by vm_compute. Qed.


(** C7 as stated fails: the foreign key of the test application declares
    [related_name='rel_p'], and the reverse name of its copy is
    [rel_p_historical], not the lower-case name of the target followed by
    [_historical]. *)
Lemma preserved_reverse_name_follows_related_name :
  ∃ attrs,
    copy_fields history_preserve PreserveFkToNonversionedModel = Return attrs
    ∧ attrs !! "fk"
      = Some (AField (set_rel (Some (mkRel "NonversionedModel" id_field
                                       (Some "rel_p_historical")))
                        (fk_field "PreserveFkToNonversionedModel" (Some "rel_p"))))
    ∧ "rel_p_historical" ≠ lower "NonversionedModel" +:+ "_historical".
Proof.
  exists (value_or ∅ (copy_fields history_preserve PreserveFkToNonversionedModel)).
  split; [apply result_returned; vm_compute; reflexivity|]. split; [by vm_compute|].
  by vm_compute.
Qed.

(** C7 (amended) at the test application. *)
Lemma preserved_key_stays_a_relation_witness :
  ∃ attrs field',
    copy_fields history_preserve PreserveFkToNonversionedModel = Return attrs
    ∧ attrs !! "fk" = Some (AField field')
    ∧ isinstance_field field' ForeignKey = true
    ∧ rel field' = Some (mkRel "NonversionedModel" id_field (Some "rel_p_historical")).
Proof.
  set (attrs := value_or ∅ (copy_fields history_preserve PreserveFkToNonversionedModel)).
  assert (E : copy_fields history_preserve PreserveFkToNonversionedModel = Return attrs)
    by (apply result_returned; vm_compute; reflexivity).
  destruct (preserved_key_stays_a_relation history_preserve PreserveFkToNonversionedModel
              (fk_field "PreserveFkToNonversionedModel" (Some "rel_p"))
              (mkRel "NonversionedModel" id_field (Some "rel_p")) attrs)
    as (field' & Hlook & _ & Hfk & _ & Hrel);
    [reflexivity|reflexivity|reflexivity| |exact E| |].
  - right. left.
  - intros g g' Hg Hc Hn. apply list_elem_of_In in Hg. simpl in Hg.
    destruct Hg as [<-|[<-|[<-|[]]]]; vm_compute in Hc; injection Hc as <-;
      vm_compute in Hn; first [discriminate|reflexivity].
  - exists attrs, field'. done.
Defined.

(** C9 as stated fails: the error of an unrecognized policy carries the
    constant message, in which neither the name of the model nor the name of
    the field occurs, and it is the same error for two different models. *)
Lemma invalid_policy_error_names_nothing :
  ∃ msg,
    copy_fields history_invalid PreserveFkToNonversionedModel = Raise (Raised ValueError msg)
    ∧ contains (object_name PreserveFkToNonversionedModel) msg = false
    ∧ contains "fk" msg = false
    ∧ copy_fields history_invalid ConvertFkToNonversionedModel
      = copy_fields history_invalid PreserveFkToNonversionedModel.
Proof. vm_compute. eexists. repeat split; reflexivity. Qed.

(** C9 (amended) at the test application. *)
Lemma unrecognized_policy_is_a_value_error_witness :
  relations_declared PreserveFkToNonversionedModel
  ∧ create_history_model history_invalid PreserveFkToNonversionedModel
    = Raise invalid_conversion
  ∧ _finalize history_invalid PreserveFkToNonversionedModel initial
    = (Raise invalid_conversion, initial).
Proof.
  assert (Hrel : relations_declared PreserveFkToNonversionedModel).
  { unfold relations_declared.
    each_field ltac:(intros Hfk; first [by vm_compute in Hfk | by eexists]). }
  split; [exact Hrel|].
  destruct (unrecognized_policy_is_a_value_error history_invalid
              PreserveFkToNonversionedModel
              (fk_field "PreserveFkToNonversionedModel" (Some "rel_p")) 3 Hrel)
    as (_ & Hmodel & Hfinal); [by right; left|reflexivity|reflexivity|done|done|].
  split; [exact Hmodel|]. apply Hfinal.
Defined.

Lemma dated_tracked n saved : tracked_instance history (dated n saved).
Proof. tracked_fixture. Qed.

(** C8 at the test application: three saves at the times 10, 20 and 30 of
    an instance created at time 10; every row holds the time of creation in
    the column set on creation. *)
Lemma shadow_rows_keep_the_captured_value_witness :
  ∃ rows st',
    run accept_all history
      [(10, PostSave (dated 0 10) true); (20, PostSave (dated 1 20) false);
       (30, PostSave (dated 2 30) false)] empty_store = (Return tt, st')
    ∧ table "HistoricalDateFieldTestModel" st' = rows
    ∧ List.length rows = 3%nat
    ∧ Forall (fun row => row_values row !! "auto_now_add_datetime" = Some (VTime 10)) rows.
Proof.
  set (events := [(10, PostSave (dated 0 10) true); (20, PostSave (dated 1 20) false);
                  (30, PostSave (dated 2 30) false)]).
  set (st' := (run accept_all history events empty_store).2).
  assert (Hrun : run accept_all history events empty_store = (Return tt, st'))
    by (apply run_returned; vm_compute; reflexivity).
  destruct (shadow_rows_keep_the_captured_value accept_all history DateFieldTestModel
              (history_model_of history DateFieldTestModel) auto_now_add_datetime
              (VTime 10) events empty_store (Return tt) st')
    as (_ & _ & _ & rows & Htab & Hrows);
    [by vm_compute|by do 3 right; left| |exact Hrun|].
  { each_field ltac:(split; [reflexivity|split; [apply dated_tracked|reflexivity]]). }
  exists rows, st'. split; [exact Hrun|].
  change (hm_name (history_model_of history DateFieldTestModel))
    with "HistoricalDateFieldTestModel" in Htab.
  rewrite app_nil_r in Htab. split; [exact Htab|]. split; [|exact Hrows].
  rewrite <- Htab. by vm_compute.
Defined.

(** ** Declaration and finalization *)

#[local] Arguments Z.of_nat : simpl never.
#[local] Arguments Z.sub : simpl never.
#[local] Arguments Nat.add : simpl never.

Ltac eff := unfold ebind, modify, record, ret, raise, lift in *; simpl in *.

Lemma _finalize_effect self sender hm w :
  create_history_model self sender = Return hm →
  ∃ w', _finalize self sender w = (Return tt, w')
        ∧ log w' = log w ++ finalize_actions self sender hm
        ∧ pending_lookups w' = pending_lookups w
        ∧ cells w' = cells w
        ∧ loaded w' = loaded w.
Proof.
  intros Hhm. unfold _finalize, monkey_patch_name_map, monkey_patch_history_properties,
    finalize_actions. eff. rewrite Hhm. simpl.
  destruct (bool_decide (meta_class sender ∈ _)); simpl;
    destruct (add_history_properties self); simpl;
    eexists; (split; [reflexivity|]); simpl; rewrite <- ?app_assoc; done.
Qed.

Lemma call_step self sender count hm todo p base w :
  create_history_model self sender = Return hm →
  waiting_for (dependency_resolved self sender count) count (S todo) p base
    (finalize_actions self sender hm) w →
  ∃ w', call (dependency_resolved self sender count) w = (Return tt, w')
        ∧ waiting_for (dependency_resolved self sender count) count todo p base
            (finalize_actions self sender hm) w'
        ∧ loaded w' = loaded w.
Proof.
  intros Hhm (Hpend & Hcell & Hlog).
  assert (Hlt : (count < List.length (cells w))%nat) by (eapply lookup_lt_Some; eauto).
  rewrite bool_decide_eq_false_2 in Hlog by lia. rewrite app_nil_r in Hlog.
  unfold call. eff. rewrite Hcell. simpl.
  rewrite list_lookup_insert_eq by exact Hlt. simpl.
  change (S (todo + List.length p)) with (S todo + List.length p)%nat.
  replace (Z.of_nat (S todo + List.length p) - 1) with (Z.of_nat (todo + List.length p)) by lia.
  destruct (decide (todo + List.length p = 0)%nat) as [Hz|Hz].
  - rewrite bool_decide_eq_true_2 by lia.
    destruct (_finalize_effect self sender hm
                (set_cells (<[count:=Z.of_nat (todo + List.length p)]> (cells w)) w) Hhm)
      as (w' & Hrun & Hlog' & Hpend' & Hcells' & Hloaded').
    exists w'. split; [exact Hrun|]. split; [|exact Hloaded'].
    split; [by rewrite Hpend'|]. split.
    + rewrite Hcells'. simpl. by rewrite list_lookup_insert_eq.
    + rewrite Hlog'. simpl. rewrite Hlog. by rewrite bool_decide_eq_true_2.
  - rewrite bool_decide_eq_false_2 by lia.
    eexists. split; [reflexivity|]. split; [|reflexivity].
    split; [exact Hpend|]. split.
    + simpl. by rewrite list_lookup_insert_eq.
    + simpl. rewrite Hlog. rewrite bool_decide_eq_false_2 by done. by rewrite app_nil_r.
Qed.

Lemma add_lazy_relation_step self sender count hm todo p base relation w :
  create_history_model self sender = Return hm →
  waiting_for (dependency_resolved self sender count) count (S todo) p base
    (finalize_actions self sender hm) w →
  ∃ w', add_lazy_relation sender relation (dependency_resolved self sender count) w
          = (Return tt, w')
        ∧ waiting_for (dependency_resolved self sender count) count todo
            (p ++ (if bool_decide (relation ∈ loaded w) then [] else [relation])) base
            (finalize_actions self sender hm) w'
        ∧ loaded w' = loaded w.
Proof.
  intros Hhm Hw. unfold add_lazy_relation.
  destruct (bool_decide (relation ∈ loaded w)).
  - rewrite app_nil_r. by apply call_step.
  - eexists. split; [reflexivity|]. split; [|reflexivity].
    destruct Hw as (Hpend & Hcell & Hlog). split; [|split]; simpl.
    + rewrite Hpend, fmap_app. done.
    + rewrite Hcell. f_equal. rewrite length_app. simpl. lia.
    + rewrite Hlog. rewrite !bool_decide_eq_false_2; [done| |]; rewrite ?length_app; simpl; lia.
Qed.

Lemma add_lazy_relations_effect self sender count hm deps p base w :
  create_history_model self sender = Return hm →
  Forall (fun f => is_Some (rel f)) deps →
  waiting_for (dependency_resolved self sender count) count (List.length deps) p base
    (finalize_actions self sender hm) w →
  ∃ w', add_lazy_relations sender deps (dependency_resolved self sender count) w
          = (Return tt, w')
        ∧ waiting_for (dependency_resolved self sender count) count 0
            (p ++ List.filter (fun t => negb (bool_decide (t ∈ loaded w))) (targets_of deps))
            base (finalize_actions self sender hm) w'
        ∧ loaded w' = loaded w.
Proof.
  intros Hhm. revert p w. induction deps as [|dep deps IH]; intros p w Hrel Hw.
  - exists w. simpl. rewrite app_nil_r. done.
  - apply Forall_cons in Hrel as [[r Hr] Hrel]. simpl in Hw.
    destruct (add_lazy_relation_step self sender count hm _ p base (to r) w Hhm Hw)
      as (w1 & Hrun1 & Hw1 & Hl1).
    destruct (IH _ w1 Hrel Hw1) as (w' & Hrun & Hw' & Hl).
    exists w'. split; [|split].
    + simpl. rewrite Hr. eff. rewrite Hrun1. exact Hrun.
    + unfold targets_of. simpl. rewrite Hr. simpl. fold (targets_of deps).
      rewrite Hl1 in Hw'. rewrite <- app_assoc in Hw'.
      destruct (bool_decide (to r ∈ loaded w)); simpl in *; exact Hw'.
    + congruence.
Qed.

Lemma dependencies_have_rel self sender :
  relations_declared sender →
  Forall (fun f => is_Some (rel f)) (get_field_dependencies self sender).
Proof.
  unfold relations_declared, get_field_dependencies. intros H.
  apply Forall_forall. intros f Hf. apply list_elem_of_In, filter_In in Hf as [Hin Hfk].
  rewrite Forall_forall in H. apply H; [by apply list_elem_of_In|done].
Qed.

(** [finalize]: the hooks are connected at once; the steps of [_finalize]
    follow at once when no target is missing. *)
Lemma finalize_effect self sender hm w :
  create_history_model self sender = Return hm →
  relations_declared sender →
  pending_lookups w = [] →
  let deps := get_field_dependencies self sender in
  let missing := List.filter (fun t => negb (bool_decide (t ∈ loaded w))) (targets_of deps) in
  ∃ w',
    finalize self sender w = (Return tt, w')
    ∧ loaded w' = loaded w
    ∧ log w' = log w ++ hook_actions self sender
               ++ (if bool_decide (missing = []) then finalize_actions self sender hm else [])
    ∧ (deps = [] → pending_lookups w' = [])
    ∧ (deps ≠ [] →
       waiting_for (dependency_resolved self sender (List.length (cells w)))
         (List.length (cells w)) 0 missing (log w ++ hook_actions self sender)
         (finalize_actions self sender hm) w').
Proof.
  intros Hhm Hrel Hpend deps missing. unfold finalize. fold deps. eff.
  destruct (decide (deps = [])) as [Hd|Hd].
  - rewrite bool_decide_eq_false_2 by (by intros ?).
    match goal with |- context [_finalize self sender ?w0] =>
      destruct (_finalize_effect self sender hm w0 Hhm) as (w' & Hrun & Hlog & Hp & _ & Hl)
    end.
    exists w'. split; [exact Hrun|]. split; [exact Hl|]. split; [|split; [|done]].
    + rewrite Hlog. simpl. unfold missing. rewrite Hd. simpl.
      unfold hook_actions. rewrite <- !app_assoc. done.
    + intros _. rewrite Hp. exact Hpend.
  - rewrite bool_decide_eq_true_2 by done.
    match goal with |- context [add_lazy_relations sender deps ?cb ?w0] =>
      destruct (add_lazy_relations_effect self sender (List.length (cells w)) hm deps []
                  (log w ++ hook_actions self sender) w0 Hhm)
        as (w' & Hrun & Hw' & Hl)
    end.
    + by apply dependencies_have_rel.
    + split; [|split]; simpl.
      * by rewrite Hpend.
      * rewrite lookup_app_r by lia. rewrite Nat.sub_diag. simpl. do 2 f_equal. lia.
      * rewrite bool_decide_eq_false_2.
        -- unfold hook_actions. rewrite <- !app_assoc, app_nil_r. done.
        -- destruct deps; [done|]. simpl. lia.
    + exists w'. split; [exact Hrun|]. split; [exact Hl|].
      simpl in Hw'. fold missing in Hw'. split; [|split; [done|by intros _]].
      destruct Hw' as (_ & _ & Hlog). rewrite Hlog.
      rewrite <- app_assoc. do 2 f_equal.
      destruct missing; simpl; done.
Qed.

Lemma ebind_returns {S A B} (m : Eff S A) (k : A → Eff S B) st a st1 :
  m st = (Return a, st1) → ebind m k st = k a st1.
Proof. intros H. unfold ebind. by rewrite H. Qed.

Lemma call_all_effect self sender count hm j p base w :
  create_history_model self sender = Return hm →
  waiting_for (dependency_resolved self sender count) count j p base
    (finalize_actions self sender hm) w →
  ∃ w', call_all (replicate j (dependency_resolved self sender count)) w = (Return tt, w')
        ∧ waiting_for (dependency_resolved self sender count) count 0 p base
            (finalize_actions self sender hm) w'
        ∧ loaded w' = loaded w.
Proof.
  intros Hhm. revert w. induction j as [|j IH]; intros w Hw.
  - exists w. done.
  - destruct (call_step self sender count hm j p base w Hhm Hw) as (w1 & Hrun1 & Hw1 & Hl1).
    destruct (IH w1 Hw1) as (w' & Hrun & Hw' & Hl).
    exists w'. split; [|split; [exact Hw'|congruence]].
    cbn [replicate call_all]. by rewrite (ebind_returns _ _ _ _ _ Hrun1).
Qed.

Lemma filter_waiting (operation : Callback) (g : string * Callback → bool) p :
  List.filter g ((fun t => (t, operation)) <$> p)
  = (fun t => (t, operation)) <$> List.filter (fun t => g (t, operation)) p.
Proof.
  induction p as [|t p IH]; [done|]. simpl.
  destruct (g (t, operation)); simpl; [f_equal|]; exact IH.
Qed.

Lemma filter_split_length (f : string → bool) p :
  (List.length (List.filter f p) + List.length (List.filter (fun t => negb (f t)) p)
   = List.length p)%nat.
Proof.
  induction p as [|t p IH]; [done|]. simpl. destruct (f t); simpl; lia.
Qed.

Lemma model_declared_effect self sender count hm m p base w :
  create_history_model self sender = Return hm →
  waiting_for (dependency_resolved self sender count) count 0 p base
    (finalize_actions self sender hm) w →
  ∃ w', model_declared m w = (Return tt, w')
        ∧ waiting_for (dependency_resolved self sender count) count 0
            (List.filter (fun t => negb (bool_decide (t = m))) p) base
            (finalize_actions self sender hm) w'
        ∧ loaded w' = {[m]} ∪ loaded w.
Proof.
  intros Hhm (Hpend & Hcell & Hlog). unfold model_declared. rewrite Hpend.
  set (operation := dependency_resolved self sender count).
  rewrite !filter_waiting. cbn beta. cbn [fst].
  set (yes := List.filter (fun t => bool_decide (t = m)) p).
  set (no := List.filter (fun t => negb (bool_decide (t = m))) p).
  rewrite <- list_fmap_compose.
  assert (Hlen : (List.length yes + List.length no = List.length p)%nat)
    by apply filter_split_length.
  assert (Hrep : (snd ∘ (fun t : string => (t, operation))) <$> yes
                 = replicate (List.length yes) operation).
  { clear. induction yes as [|t yes IH]; [done|]. simpl. f_equal. exact IH. }
  rewrite Hrep.
  match goal with |- context [call_all _ ?w0] =>
    destruct (call_all_effect self sender count hm (List.length yes) no base w0 Hhm)
      as (w' & Hrun & Hw' & Hl)
  end.
  - split; [done|]. simpl. split.
    + rewrite Hcell. do 2 f_equal. lia.
    + rewrite Hlog. f_equal. destruct (decide (List.length p = 0)%nat) as [Hz|Hz].
      * rewrite !bool_decide_eq_true_2; [done|lia|lia].
      * rewrite !bool_decide_eq_false_2; [done|lia|lia].
  - exists w'. done.
Qed.

Lemma filter_filter_declared (m : string) (ms p : list string) :
  List.filter (fun t => negb (bool_decide (t ∈ ms)))
    (List.filter (fun t => negb (bool_decide (t = m))) p)
  = List.filter (fun t => negb (bool_decide (t ∈ m :: ms))) p.
Proof.
  induction p as [|t p IH]; [done|]. simpl.
  destruct (decide (t = m)) as [->|Hne].
  - rewrite (bool_decide_eq_true_2 (m = m)) by done. simpl.
    rewrite (bool_decide_eq_true_2 (m ∈ m :: ms)) by left. simpl. exact IH.
  - rewrite (bool_decide_eq_false_2 (t = m)) by done. simpl.
    destruct (decide (t ∈ ms)) as [Hin|Hin].
    + rewrite (bool_decide_eq_true_2 (t ∈ ms)) by done.
      rewrite (bool_decide_eq_true_2 (t ∈ m :: ms)) by (by right). simpl. exact IH.
    + rewrite (bool_decide_eq_false_2 (t ∈ ms)) by done.
      rewrite (bool_decide_eq_false_2 (t ∈ m :: ms)).
      * simpl. by rewrite IH.
      * intros [?|?]%elem_of_cons; done.
Qed.

Lemma models_declared_effect self sender count hm ms p base w :
  create_history_model self sender = Return hm →
  waiting_for (dependency_resolved self sender count) count 0 p base
    (finalize_actions self sender hm) w →
  ∃ w', models_declared ms w = (Return tt, w')
        ∧ waiting_for (dependency_resolved self sender count) count 0
            (List.filter (fun t => negb (bool_decide (t ∈ ms))) p) base
            (finalize_actions self sender hm) w'.
Proof.
  intros Hhm. revert p w. induction ms as [|m ms IH]; intros p w Hw.
  - exists w. split; [done|].
    replace (List.filter _ p) with p; [done|].
    clear. induction p as [|t p IH]; [done|]. simpl.
    rewrite ?bool_decide_eq_false_2 by apply not_elem_of_nil. simpl. f_equal. exact IH.
  - destruct (model_declared_effect self sender count hm m p base w Hhm Hw)
      as (w1 & Hrun1 & Hw1 & _).
    destruct (IH _ w1 Hw1) as (w' & Hrun & Hw').
    exists w'. split.
    + cbn [models_declared]. by rewrite (ebind_returns _ _ _ _ _ Hrun1).
    + by rewrite filter_filter_declared in Hw'.
Qed.

Lemma models_declared_idle ms w :
  pending_lookups w = [] →
  ∃ w', models_declared ms w = (Return tt, w') ∧ log w' = log w.
Proof.
  revert w. induction ms as [|m ms IH]; intros w Hp.
  - exists w. done.
  - simpl. eff. unfold model_declared. rewrite Hp. simpl.
    match goal with |- context [models_declared ms ?w0] =>
      destruct (IH w0) as (w' & Hrun & Hlog); [done|]
    end.
    exists w'. done.
Qed.

Lemma filter_nil_iff (f : string → bool) p :
  List.filter f p = [] ↔ Forall (fun t => f t = false) p.
Proof.
  induction p as [|t p IH]; simpl.
  - split; [by constructor|done].
  - destruct (f t) eqn:E.
    + split; [done|]. intros [H _]%Forall_cons. congruence.
    + rewrite IH. split; [by constructor|]. by intros [_ H]%Forall_cons.
Qed.

Lemma nothing_missing (known : gset string) (declared targets : list string) :
  List.filter (fun t => negb (bool_decide (t ∈ declared)))
    (List.filter (fun t => negb (bool_decide (t ∈ known))) targets) = []
  ↔ Forall (fun t => t ∈ known ∨ t ∈ declared) targets.
Proof.
  induction targets as [|t targets IH]; simpl.
  - split; [by constructor|done].
  - destruct (decide (t ∈ known)) as [Hk|Hk].
    + rewrite (bool_decide_eq_true_2 _ Hk). simpl. rewrite IH.
      split; [constructor; eauto|]. by intros [_ H]%Forall_cons.
    + rewrite (bool_decide_eq_false_2 _ Hk). simpl.
      destruct (decide (t ∈ declared)) as [Hd|Hd].
      * rewrite (bool_decide_eq_true_2 _ Hd). simpl. rewrite IH.
        split; [constructor; eauto|]. by intros [_ H]%Forall_cons.
      * rewrite (bool_decide_eq_false_2 _ Hd). simpl.
        split; [done|]. intros [[?|?] _]%Forall_cons; done.
Qed.

(** C5 (amended). [finalize] connects the two handlers at once, whether or
    not the targets of the foreign keys are declared. The steps of
    [_finalize] (the historical model is created, its descriptor is set on
    the tracked model, [monkey_patch_name_map] is called, then
    [monkey_patch_history_properties] when asked for) follow in that order,
    once: at once when every target is already declared, in particular when
    the model has no foreign key, and otherwise as soon as the last missing
    target is declared; as long as a target is missing they do not happen. *)
Theorem hooks_at_once_synthesis_when_targets_are_declared
    self sender hm declared w :
  create_history_model self sender = Return hm →
  relations_declared sender →
  pending_lookups w = [] →
  let targets := targets_of (get_field_dependencies self sender) in
  ∃ w1 w2,
    finalize self sender w = (Return tt, w1)
    ∧ models_declared declared w1 = (Return tt, w2)
    ∧ (Forall (fun t => t ∈ loaded w) targets →
       log w1 = log w ++ hook_actions self sender ++ finalize_actions self sender hm)
    ∧ (¬ Forall (fun t => t ∈ loaded w) targets →
       log w1 = log w ++ hook_actions self sender)
    ∧ (Forall (fun t => t ∈ loaded w ∨ t ∈ declared) targets →
       log w2 = log w ++ hook_actions self sender ++ finalize_actions self sender hm)
    ∧ (¬ Forall (fun t => t ∈ loaded w ∨ t ∈ declared) targets →
       log w2 = log w ++ hook_actions self sender).
Proof.
  intros Hhm Hrel Hpend targets.
  destruct (finalize_effect self sender hm w Hhm Hrel Hpend)
    as (w1 & Hrun & Hl & Hlog & Hnone & Hsome).
  fold targets in Hlog, Hsome.
  set (missing := List.filter (fun t => negb (bool_decide (t ∈ loaded w))) targets) in *.
  assert (Hmiss : missing = [] ↔ Forall (fun t => t ∈ loaded w) targets).
  { unfold missing. rewrite filter_nil_iff. apply Forall_iff. intros t.
    rewrite negb_false_iff, bool_decide_eq_true. done. }
  assert (Hlog1 : (Forall (fun t => t ∈ loaded w) targets →
             log w1 = log w ++ hook_actions self sender ++ finalize_actions self sender hm)
          ∧ (¬ Forall (fun t => t ∈ loaded w) targets →
             log w1 = log w ++ hook_actions self sender)).
  { split; intros H; rewrite Hlog.
    - rewrite bool_decide_eq_true_2 by (by apply Hmiss). done.
    - rewrite bool_decide_eq_false_2 by (by rewrite Hmiss). by rewrite app_nil_r. }
  destruct (decide (get_field_dependencies self sender = [])) as [Hd|Hd].
  - destruct (models_declared_idle declared w1 (Hnone Hd)) as (w2 & Hrun2 & Hlog2).
    exists w1, w2. split; [exact Hrun|]. split; [exact Hrun2|].
    split; [apply Hlog1|]. split; [apply Hlog1|].
    assert (Hall : Forall (fun t => t ∈ loaded w) targets)
      by (unfold targets; rewrite Hd; constructor).
    split.
    + intros _. rewrite Hlog2. by apply Hlog1.
    + intros Hn. exfalso. apply Hn. eapply Forall_impl; [exact Hall|]. tauto.
  - destruct (models_declared_effect self sender _ hm declared missing _ w1 Hhm (Hsome Hd))
      as (w2 & Hrun2 & _ & _ & Hlog2).
    exists w1, w2. split; [exact Hrun|]. split; [exact Hrun2|].
    split; [apply Hlog1|]. split; [apply Hlog1|].
    pose proof (nothing_missing (loaded w) declared targets) as Hiff. fold missing in Hiff.
    split; intros H; rewrite Hlog2.
    + apply Hiff in H. rewrite H. simpl. by rewrite <- app_assoc.
    + rewrite bool_decide_eq_false_2; [by rewrite app_nil_r|].
      intros Hz. apply H, Hiff. by destruct (List.filter _ missing).
Qed.

Lemma same_subscriptions_refl w : same_subscriptions w w.
Proof. by repeat split. Qed.

Lemma same_subscriptions_trans w1 w2 w3 :
  same_subscriptions w1 w2 → same_subscriptions w2 w3 → same_subscriptions w1 w3.
Proof. intros (?&?&?&?) (?&?&?&?). repeat split; congruence. Qed.

Lemma _finalize_subscriptions self sender w :
  same_subscriptions w (_finalize self sender w).2.
Proof.
  unfold _finalize, monkey_patch_name_map, monkey_patch_history_properties. eff.
  destruct (create_history_model self sender); simpl; [|apply same_subscriptions_refl].
  destruct (bool_decide (meta_class sender ∈ _)); simpl;
    destruct (add_history_properties self); simpl; by repeat split.
Qed.

Lemma call_subscriptions operation w : same_subscriptions w (call operation w).2.
Proof.
  destruct operation as [self sender count]. unfold call. eff.
  destruct (bool_decide _).
  - eapply same_subscriptions_trans; [|apply _finalize_subscriptions]. by repeat split.
  - by repeat split.
Qed.

Lemma add_lazy_relation_subscriptions cls relation operation w :
  same_subscriptions w (add_lazy_relation cls relation operation w).2.
Proof.
  unfold add_lazy_relation. destruct (bool_decide _).
  - apply call_subscriptions.
  - by repeat split.
Qed.

Lemma add_lazy_relations_subscriptions sender deps operation w :
  same_subscriptions w (add_lazy_relations sender deps operation w).2.
Proof.
  revert w. induction deps as [|dep deps IH]; intros w; simpl.
  - apply same_subscriptions_refl.
  - destruct (rel dep) as [r|]; [|apply same_subscriptions_refl].
    unfold ebind.
    pose proof (add_lazy_relation_subscriptions sender (to r) operation w) as H1.
    destruct (add_lazy_relation sender (to r) operation w) as [[[]|e] w1]; simpl in *.
    + eapply same_subscriptions_trans; [exact H1|apply IH].
    + exact H1.
Qed.

(** [finalize] connects the two handlers of [self] for [sender], whatever
    else it does and however it ends. *)
Lemma finalize_subscriptions self sender w :
  let w' := (finalize self sender w).2 in
  post_save_receivers w'
    = connect (mkReceiver self m_post_save (object_name sender)) (post_save_receivers w)
  ∧ post_delete_receivers w'
    = connect (mkReceiver self m_post_delete (object_name sender)) (post_delete_receivers w)
  ∧ class_prepared w' = class_prepared w
  ∧ app_errors w' = app_errors w.
Proof.
  unfold finalize. eff.
  destruct (bool_decide (get_field_dependencies self sender ≠ [])).
  - match goal with |- context [add_lazy_relations ?s ?d ?o ?w0] =>
      destruct (add_lazy_relations_subscriptions s d o w0) as (H1 & H2 & H3 & H4)
    end.
    rewrite H1, H2, H3, H4. done.
  - match goal with |- context [_finalize ?s ?d ?w0] =>
      destruct (_finalize_subscriptions s d w0) as (H1 & H2 & H3 & H4)
    end.
    rewrite H1, H2, H3, H4. done.
Qed.

Lemma connect_fresh m cls d done :
  declaration_oid d ∉ declaration_oid <$> done →
  connect (receiver_of m cls d) (receiver_of m cls <$> done)
  = receiver_of m cls <$> (done ++ [d]).
Proof.
  intros Hfresh. unfold connect. rewrite bool_decide_eq_false_2.
  - by rewrite fmap_app.
  - rewrite <- list_fmap_compose. intros (d' & Hk & Hin)%list_elem_of_fmap.
    apply Hfresh. apply list_elem_of_fmap. exists d'. split; [|done].
    unfold lookup_key, receiver_of, compose in Hk. simpl in Hk. by injection Hk.
Qed.

Lemma contribute_all_effect cls ds done w :
  NoDup (declaration_oid <$> (done ++ ds)) →
  class_prepared w = receiver_of m_finalize cls <$> done →
  ∃ w1,
    contribute_all ds cls w = (Return tt, w1)
    ∧ class_prepared w1 = receiver_of m_finalize cls <$> (done ++ ds)
    ∧ post_save_receivers w1 = post_save_receivers w
    ∧ post_delete_receivers w1 = post_delete_receivers w
    ∧ app_errors w1 =
        match ds with
        | [] => app_errors w
        | [_] => if bool_decide (object_name cls ∈ HISTORICAL_RECORD_CLASSES w)
                 then <[object_name cls := duplicate_declaration]> (app_errors w)
                 else app_errors w
        | _ => <[object_name cls := duplicate_declaration]> (app_errors w)
        end.
Proof.
  revert done w. induction ds as [|[self name] ds IH]; intros done w Hnd Hcp.
  - exists w. rewrite app_nil_r. done.
  - assert (Hfresh : declaration_oid (self, name) ∉ declaration_oid <$> done).
    { rewrite fmap_app, fmap_cons in Hnd. apply NoDup_app in Hnd as (_ & Hd & _).
      intros Hin. apply (Hd _ Hin). left. }
    cbn [contribute_all]. unfold contribute_to_class. eff.
    match goal with |- context [contribute_all ds cls ?w0] =>
      destruct (IH (done ++ [(self, name)]) w0) as (w1 & Hrun & Hcp1 & Hps & Hpd & Herr)
    end.
    { by rewrite <- app_assoc. }
    { destruct (bool_decide (object_name cls ∈ HISTORICAL_RECORD_CLASSES w)); simpl;
        rewrite Hcp; by apply (connect_fresh m_finalize cls (self, name)). }
    exists w1. split; [exact Hrun|]. rewrite <- app_assoc in Hcp1.
    split; [exact Hcp1|].
    assert (Hin : object_name cls
                  ∈ ({[object_name cls]} ∪ HISTORICAL_RECORD_CLASSES w : gset string))
      by set_solver.
    destruct (bool_decide (object_name cls ∈ HISTORICAL_RECORD_CLASSES w)) eqn:Hb;
      simpl in *; (split; [exact Hps|]); (split; [exact Hpd|]); rewrite Herr;
      destruct ds as [|d1 [|d2 ds]]; simpl;
      rewrite ?(bool_decide_eq_true_2 _ Hin); rewrite ?insert_insert_eq; done.
Qed.

Lemma call_receivers_effect cls ds done w w' :
  NoDup (declaration_oid <$> (done ++ ds)) →
  post_save_receivers w = receiver_of m_post_save cls <$> done →
  post_delete_receivers w = receiver_of m_post_delete cls <$> done →
  call_receivers (receiver_of m_finalize cls <$> ds) cls w = (Return tt, w') →
  post_save_receivers w' = receiver_of m_post_save cls <$> (done ++ ds)
  ∧ post_delete_receivers w' = receiver_of m_post_delete cls <$> (done ++ ds)
  ∧ app_errors w' = app_errors w.
Proof.
  revert done w. induction ds as [|d ds IH]; intros done w Hnd Hps Hpd Hrun.
  - simpl in Hrun. injection Hrun as <-. rewrite app_nil_r. done.
  - assert (Hfresh : declaration_oid d ∉ declaration_oid <$> done).
    { rewrite fmap_app, fmap_cons in Hnd. apply NoDup_app in Hnd as (_ & Hd & _).
      intros Hin. apply (Hd _ Hin). left. }
    rewrite fmap_cons in Hrun. cbn [call_receivers] in Hrun.
    unfold ebind in Hrun. simpl in Hrun.
    rewrite bool_decide_eq_true_2 in Hrun by done.
    pose proof (finalize_subscriptions (set_manager_name d.2 d.1) cls w)
      as (H1 & H2 & _ & H4).
    destruct (finalize (set_manager_name d.2 d.1) cls w) as [[[]|e] w1];
      [|discriminate]. simpl in H1, H2, H4.
    destruct (IH (done ++ [d]) w1) as (Hps' & Hpd' & Herr).
    + by rewrite <- app_assoc.
    + rewrite H1, Hps. by apply (connect_fresh m_post_save cls d).
    + rewrite H2, Hpd. by apply (connect_fresh m_post_delete cls d).
    + exact Hrun.
    + rewrite <- app_assoc in Hps', Hpd'. split; [exact Hps'|]. split; [exact Hpd'|].
      congruence.
Qed.

(** C4 (amended). When a model is declared with [k] tracking declarations
    (distinct objects) and its class statement completes, every declaration
    has its own pair of handlers connected: [k] receivers of [post_save] and
    [k] of [post_delete], one pair only when there is one declaration. With
    two declarations or more the error
    [Models cannot have more than one HistoricalRecords field.] is reported
    for the model; with one or none, no error is added. *)
Theorem every_declaration_subscribes cls declarations w w' :
  NoDup (declaration_oid <$> declarations) →
  class_prepared w = [] →
  post_save_receivers w = [] →
  post_delete_receivers w = [] →
  object_name cls ∉ HISTORICAL_RECORD_CLASSES w →
  declare_class cls declarations w = (Return tt, w') →
  post_save_receivers w' = receiver_of m_post_save cls <$> declarations
  ∧ post_delete_receivers w' = receiver_of m_post_delete cls <$> declarations
  ∧ List.length (post_save_receivers w') = List.length declarations
  ∧ List.length (post_delete_receivers w') = List.length declarations
  ∧ ((2 ≤ List.length declarations)%nat →
     app_errors w' !! object_name cls = Some duplicate_declaration)
  ∧ ((List.length declarations ≤ 1)%nat → app_errors w' = app_errors w).
Proof.
  intros Hnd Hcp Hps Hpd Hnew Hrun. unfold declare_class, send_class_prepared in Hrun.
  destruct (contribute_all_effect cls declarations [] w Hnd Hcp)
    as (w1 & Hrun1 & Hcp1 & Hps1 & Hpd1 & Herr1).
  rewrite (ebind_returns _ _ _ _ _ Hrun1) in Hrun. rewrite Hcp1 in Hrun. simpl in Hrun.
  destruct (call_receivers_effect cls declarations [] w1 w' Hnd) as (Hps' & Hpd' & Herr');
    [by rewrite Hps1|by rewrite Hpd1|exact Hrun|].
  simpl in Hps', Hpd'. split; [exact Hps'|]. split; [exact Hpd'|].
  rewrite Hps', Hpd', !length_fmap. split; [done|]. split; [done|].
  rewrite Herr', Herr1. rewrite bool_decide_eq_false_2 by done. split.
  - intros Hlen. destruct declarations as [|d1 [|d2 ds]]; simpl in Hlen; try lia.
    by rewrite lookup_insert_eq.
  - intros Hlen. destruct declarations as [|d1 [|d2 ds]]; simpl in Hlen; try lia; done.
Qed.

(** ** The retrofit of the name map *)

Lemma world_eq w1 w2 :
  HISTORICAL_RECORD_CLASSES w1 = HISTORICAL_RECORD_CLASSES w2 →
  PATCHED_META_CLASSES w1 = PATCHED_META_CLASSES w2 →
  app_errors w1 = app_errors w2 →
  loaded w1 = loaded w2 →
  pending_lookups w1 = pending_lookups w2 →
  app_cache_ready w1 = app_cache_ready w2 →
  class_prepared w1 = class_prepared w2 →
  post_save_receivers w1 = post_save_receivers w2 →
  post_delete_receivers w1 = post_delete_receivers w2 →
  cells w1 = cells w2 →
  descriptors w1 = descriptors w2 →
  properties w1 = properties w2 →
  init_name_map w1 = init_name_map w2 →
  _name_map w1 = _name_map w2 →
  log w1 = log w2 →
  w1 = w2.
Proof. destruct w1, w2. simpl. intros. subst. reflexivity. Qed.

Section Retrofit.

Variable orm_name_map : Model → gmap string Entry.

(** X16. The retrofit for the model that installed the replacement: once the
    application cache is ready, rebuilding the index gives the ORM's map with
    the history entry under [manager_name], stores it, and gives it again,
    in the same state, however often it is rebuilt; the entries under other
    names are the ORM's. Before the cache is ready the ORM's map is returned
    and nothing is stored. *)
Lemma retrofit_of_the_patching_model self cls hm p w :
  init_name_map w !! meta_class cls = Some (PatchedInitNameMap self cls OriginalInitNameMap) →
  descriptors w !! (object_name cls, manager_name self) = Some hm →
  pk cls = Some p →
  let index := <[manager_name self := history_entry cls hm p]> (orm_name_map cls) in
  (app_cache_ready w = true →
   ∃ w',
     rebuild_name_map orm_name_map cls w = (Return index, w')
     ∧ _name_map w' !! object_name cls = Some index
     ∧ rebuild_name_map orm_name_map cls w' = (Return index, w')
     ∧ ∀ k, k ≠ manager_name self → index !! k = orm_name_map cls !! k)
  ∧ (app_cache_ready w = false →
     rebuild_name_map orm_name_map cls w = (Return (orm_name_map cls), w)).
Proof.
  intros Hpatch Hdesc Hpk index.
  assert (Hrun : ∀ w0,
            init_name_map w0 = init_name_map w → descriptors w0 = descriptors w →
            app_cache_ready w0 = true →
            rebuild_name_map orm_name_map cls w0
            = (Return index,
               set__name_map (<[object_name cls := index]> (_name_map w0)) w0)).
  { intros w0 Hi Hd Hready. unfold rebuild_name_map. rewrite Hi, Hpatch. simpl.
    unfold update_item_name_map. eff. rewrite Hready. simpl. rewrite Hd, Hdesc, Hpk.
    simpl. rewrite Hready. fold (history_entry cls hm p). fold index.
    destruct (decide (orm_name_map cls = index)) as [E|E].
    - rewrite bool_decide_eq_false_2 by (by intros ?). simpl. by rewrite <- E.
    - rewrite bool_decide_eq_true_2 by done. simpl. f_equal.
      apply world_eq; simpl; try done. by rewrite insert_insert_eq. }
  split.
  - intros Hready. eexists. split; [by apply Hrun|]. split; [|split].
    + simpl. by rewrite lookup_insert_eq.
    + rewrite Hrun by done. f_equal. apply world_eq; simpl; try done.
      by rewrite insert_insert_eq.
    + intros k Hk. unfold index. by rewrite lookup_insert_ne.
  - intros Hready. unfold rebuild_name_map. rewrite Hpatch. simpl.
    unfold update_item_name_map. eff. rewrite Hready. simpl. rewrite Hdesc, Hpk.
    simpl. rewrite Hready. by rewrite andb_false_r.
Qed.

End Retrofit.

(** ** Declarations of the test application *)

(** C4 as stated fails: a model declared with two tracking declarations
    ends with two pairs of handlers, although the second declaration is
    reported as an error. *)
Lemma second_declaration_is_reported_and_subscribed :
  ∃ w,
    declare_class VersionedModel
      [(log_declaration, "history"); (second_declaration, "audit")] initial
      = (Return tt, w)
    ∧ app_errors w !! "VersionedModel" = Some duplicate_declaration
    ∧ lookup_key <$> post_save_receivers w
      = [(4%nat, m_post_save, "VersionedModel"); (5%nat, m_post_save, "VersionedModel")]
    ∧ lookup_key <$> post_delete_receivers w
      = [(4%nat, m_post_delete, "VersionedModel"); (5%nat, m_post_delete, "VersionedModel")].
Proof.
  eexists. split; [apply run_returned; vm_compute; reflexivity|].
  repeat split; by vm_compute.
Qed.

(** C4 (amended) at the test application. *)
Lemma every_declaration_subscribes_witness :
  ∃ w,
    declare_class VersionedModel
      [(log_declaration, "history"); (second_declaration, "audit")] initial
      = (Return tt, w)
    ∧ List.length (post_save_receivers w) = 2%nat
    ∧ List.length (post_delete_receivers w) = 2%nat
    ∧ app_errors w !! "VersionedModel" = Some duplicate_declaration.
Proof.
  pose proof (run_returned
                (declare_class VersionedModel
                   [(log_declaration, "history"); (second_declaration, "audit")] initial))
    as Hrun.
  specialize (Hrun ltac:(vm_compute; reflexivity)).
  eexists. split; [exact Hrun|].
  assert (Hnd : NoDup (declaration_oid
                         <$> [(log_declaration, "history"); (second_declaration, "audit")]))
    by (apply (bool_decide_unpack _); vm_compute; reflexivity).
  assert (Hnew : object_name VersionedModel ∉ HISTORICAL_RECORD_CLASSES initial)
    by (by vm_compute).
  destruct (every_declaration_subscribes VersionedModel
              [(log_declaration, "history"); (second_declaration, "audit")] initial _
              Hnd eq_refl eq_refl eq_refl Hnew Hrun)
    as (_ & _ & Hsave & Hdelete & Herr & _).
  split; [exact Hsave|]. split; [exact Hdelete|]. apply Herr. simpl. lia.
Defined.

(** C5 as stated fails: for a model with a foreign key to a model that is
    not declared yet, [finalize] has connected both handlers, and has created
    no historical model; and for a model without foreign keys the handlers
    are connected before the historical model is created. *)
Lemma hooks_do_not_wait_for_targets :
  (∃ w,
     finalize history_preserve PreserveFkToNonversionedModel initial = (Return tt, w)
     ∧ ("NonversionedModel" ∉ loaded w)
     ∧ descriptors w = ∅
     ∧ log w = [Connected "post_save" 2 "PreserveFkToNonversionedModel";
                Connected "post_delete" 2 "PreserveFkToNonversionedModel"])
  ∧ (∃ w,
       finalize history VersionedModel initial = (Return tt, w)
       ∧ log w = [Connected "post_save" 1 "VersionedModel";
                  Connected "post_delete" 1 "VersionedModel";
                  CreatedHistoryModel "HistoricalVersionedModel";
                  SetDescriptor "VersionedModel" "history";
                  CalledMonkeyPatchNameMap "VersionedModel"]).
Proof.
  split; eexists; (split; [apply run_returned; vm_compute; reflexivity|]);
    repeat split; by vm_compute.
Qed.

Lemma relations_declared_preserve : relations_declared PreserveFkToNonversionedModel.
Proof.
  unfold relations_declared.
  each_field ltac:(intros Hfk; first [by vm_compute in Hfk | by eexists]).
Qed.

(** C5 (amended) at the test application: the historical model is created
    when the target is declared. *)
Lemma hooks_at_once_synthesis_when_targets_are_declared_witness :
  relations_declared PreserveFkToNonversionedModel
  ∧ ∃ w1 w2,
      finalize history_preserve PreserveFkToNonversionedModel initial = (Return tt, w1)
      ∧ models_declared ["NonversionedModel"] w1 = (Return tt, w2)
      ∧ log w1 = [Connected "post_save" 2 "PreserveFkToNonversionedModel";
                  Connected "post_delete" 2 "PreserveFkToNonversionedModel"]
      ∧ log w2 = [Connected "post_save" 2 "PreserveFkToNonversionedModel";
                  Connected "post_delete" 2 "PreserveFkToNonversionedModel";
                  CreatedHistoryModel "HistoricalPreserveFkToNonversionedModel";
                  SetDescriptor "PreserveFkToNonversionedModel" "history";
                  CalledMonkeyPatchNameMap "PreserveFkToNonversionedModel"].
Proof.
  split; [exact relations_declared_preserve|].
  destruct (hooks_at_once_synthesis_when_targets_are_declared history_preserve
              PreserveFkToNonversionedModel
              (history_model_of history_preserve PreserveFkToNonversionedModel)
              ["NonversionedModel"] initial history_model_of_preserve
              relations_declared_preserve eq_refl)
    as (w1 & w2 & Hrun1 & Hrun2 & _ & Hwait & Hdone & _).
  exists w1, w2. split; [exact Hrun1|]. split; [exact Hrun2|]. split.
  - rewrite Hwait; [reflexivity|]. intros [H _]%Forall_cons.
    by apply elem_of_empty in H.
  - rewrite Hdone; [reflexivity|].
    apply Forall_cons. split; [right; left|by apply Forall_nil].
Defined.

(** C6: the code at two tracked models. [VersionedModel] is declared with
    [history = HistoricalRecords()], [AuditedModel] with
    [log = HistoricalRecords()]; both have options objects of the class
    [Options]. The second call of [monkey_patch_name_map] returns at once, and
    the index rebuilt for [AuditedModel] holds, under [history], the relation
    of [VersionedModel] to [HistoricalVersionedModel], and nothing under
    [log]. *)
Theorem second_tracked_model_gets_the_relation_of_the_first :
  ∃ w1 w2 index w3,
    declare_class VersionedModel [(Fixtures.history, "history")] initial = (Return tt, w1)
    ∧ declare_class AuditedModel [(log_declaration, "log")] w1 = (Return tt, w2)
    ∧ hm_name <$> descriptors w2 !! ("AuditedModel", "log") = Some "HistoricalAuditedModel"
    ∧ rebuild_name_map orm_fields AuditedModel (set_app_cache_ready true w2)
      = (Return index, w3)
    ∧ index !! "log" = None
    ∧ index !! "history"
      = Some (mkEntry (RelatedObject "VersionedModel" "HistoricalVersionedModel" "id")
                None false false).
Proof.
  do 4 eexists.
  split; [apply run_returned; vm_compute; reflexivity|].
  split; [apply run_returned; vm_compute; reflexivity|].
  split; [vm_compute; reflexivity|].
  split; [apply (run_returned_value ∅); vm_compute; reflexivity|].
  split; vm_compute; reflexivity.
Qed.

(** The first tracked model of the same run has its own entry, and a
    second rebuild gives the same index in the same state. *)
Example first_tracked_model_has_its_relation :
  ∃ w index w',
    declare_class VersionedModel [(Fixtures.history, "history")] initial = (Return tt, w)
    ∧ rebuild_name_map orm_fields VersionedModel (set_app_cache_ready true w)
      = (Return index, w')
    ∧ index !! "history"
      = Some (mkEntry (RelatedObject "VersionedModel" "HistoricalVersionedModel" "id")
                None false false)
    ∧ (rebuild_name_map orm_fields VersionedModel w').1 = Return index.
Proof.
  do 3 eexists.
  split; [apply run_returned; vm_compute; reflexivity|].
  split; [apply (run_returned_value ∅); vm_compute; reflexivity|].
  split; vm_compute; reflexivity.
Qed.
(* ===================================================================== *)
(** ** Further properties of the module *)
(* ===================================================================== *)

Ltac finish_cases :=
  unfold finish, unique, isinstance_field;
  repeat (match goal with
          | |- context [if ?b then _ else _] => destruct b eqn:?
          end; simpl in * ).

Lemma finish_primary_key g : primary_key (finish g) = false.
Proof.
  destruct g. finish_cases; try reflexivity;
    repeat match goal with H : _ || _ = false |- _ => apply orb_false_iff in H as [? ?] end;
    congruence.
Qed.

Lemma finish__unique g : _unique (finish g) = false.
Proof.
  destruct g. finish_cases; try reflexivity;
    repeat match goal with H : _ || _ = false |- _ => apply orb_false_iff in H as [? ?] end;
    congruence.
Qed.

Lemma finish_db_index g :
  db_index (finish g) = db_index g || primary_key g || _unique g.
Proof.
  destruct g as [c n nl bl p u d an ana r o fd ml ch].
  destruct c, p, u, d; reflexivity.
Qed.

Lemma finish_keeps g :
  null (finish g) = null g ∧ blank (finish g) = blank g ∧ opts (finish g) = opts g
  ∧ field_default (finish g) = field_default g ∧ max_length (finish g) = max_length g
  ∧ choices (finish g) = choices g.
Proof. destruct g. finish_cases; done. Qed.

Lemma finish_not_auto g : isinstance_field (finish g) AutoField = false.
Proof.
  unfold isinstance_field. rewrite finish_class. unfold isinstance_field.
  destruct (field_issubclass (__class__ g) AutoField) eqn:E; [reflexivity|exact E].
Qed.

Lemma finish_identity g :
  isinstance_field g AutoField = false → is_date_or_time g = false →
  primary_key g = false → _unique g = false → finish g = g.
Proof.
  unfold finish, is_date_or_time, unique. intros -> -> -> ->. reflexivity.
Qed.

(* ===================================================================== *)
(** ** The copies of the fields *)
(* ===================================================================== *)

(** Where an entry of the dictionary built by the loop comes from. *)
Lemma copy_fields_loop_origin self todo acc attrs k a :
  copy_fields_loop self todo acc = Return attrs →
  attrs !! k = Some a →
  (∃ g g', g ∈ todo ∧ copy_field self g = Return g' ∧ name g' = k ∧ a = AField g')
  ∨ acc !! k = Some a.
Proof.
  revert acc. induction todo as [|field todo IH]; intros acc H Hk; simpl in H.
  - injection H as <-. by right.
  - destruct (copy_field self field) as [field'|] eqn:E; simpl in H; [|discriminate].
    destruct (IH _ H Hk) as [(g & g' & Hg & Hc & Hn & Ha)|Hacc].
    + left. exists g, g'. split; [by right|done].
    + destruct (decide (name field' = k)) as [Hn|Hn].
      * rewrite <- Hn, lookup_insert_eq in Hacc. injection Hacc as <-.
        left. exists field, field'. split; [by left|done].
      * rewrite lookup_insert_ne in Hacc by done. by right.
Qed.

Lemma copy_fields_origin self model attrs k f :
  copy_fields self model = Return attrs →
  attrs !! k = Some (AField f) →
  ∃ g, g ∈ fields model ∧ copy_field self g = Return f ∧ name f = k.
Proof.
  intros H Hk. destruct (copy_fields_loop_origin _ _ _ _ _ _ H Hk)
    as [(g & g' & Hg & Hc & Hn & Ha)|Hacc].
  - injection Ha as ->. eauto.
  - destruct (decide (k = "__module__")) as [->|Hne].
    + rewrite lookup_singleton_eq in Hacc. discriminate.
    + rewrite lookup_singleton_ne in Hacc by done. discriminate.
Qed.

(** The fields that are stored under other names leave an entry alone. *)
Lemma copy_fields_loop_untouched self todo acc attrs k :
  copy_fields_loop self todo acc = Return attrs →
  (∀ h h', h ∈ todo → copy_field self h = Return h' → name h' ≠ k) →
  attrs !! k = acc !! k.
Proof.
  revert acc. induction todo as [|field todo IH]; intros acc H Hother; simpl in H.
  - by injection H as <-.
  - destruct (copy_field self field) as [field'|] eqn:E; simpl in H; [|discriminate].
    rewrite (IH _ H) by (intros h h' Hh; apply Hother; by right).
    rewrite lookup_insert_ne; [done|]. eapply Hother; [by left|exact E].
Qed.

Lemma copy_fields_loop_app self pre post acc :
  copy_fields_loop self (pre ++ post) acc =
    (attrs <- copy_fields_loop self pre acc ;; copy_fields_loop self post attrs).
Proof.
  revert acc. induction pre as [|g pre IH]; intros acc; simpl; [done|].
  destruct (copy_field self g); simpl; [apply IH|done].
Qed.

Lemma copy_fields_loop_valid self todo acc :
  Forall (fun f => isinstance_field f ForeignKey = true → is_Some (rel f)) todo →
  Forall (fun f => isinstance_field f ForeignKey = true →
                   conversion_of self f = CONVERT ∨ conversion_of self f = PRESERVE) todo →
  ∃ attrs, copy_fields_loop self todo acc = Return attrs.
Proof.
  revert acc. induction todo as [|g todo IH]; intros acc Hrel Hvalid; simpl; [eauto|].
  apply Forall_cons in Hrel as [Hg Hrel]. apply Forall_cons in Hvalid as [Hv Hvalid].
  assert (∃ g', copy_field self g = Return g') as [g' ->].
  { destruct (isinstance_field g ForeignKey) eqn:Hfk.
    - destruct (Hg eq_refl) as [r Hr]. destruct (Hv eq_refl) as [Hc|Hc].
      + eexists. by apply copy_field_convert.
      + eexists. by apply copy_field_preserve.
    - eexists. by apply copy_field_plain. }
  simpl. by apply IH.
Qed.

Lemma copy_field_returns_valid self g g' :
  copy_field self g = Return g' →
  isinstance_field g ForeignKey = true →
  conversion_of self g = CONVERT ∨ conversion_of self g = PRESERVE.
Proof.
  intros H Hfk.
  destruct (decide (conversion_of self g = CONVERT)) as [Hc|Hc]; [by left|].
  destruct (decide (conversion_of self g = PRESERVE)) as [Hp|Hp]; [by right|].
  rewrite copy_field_invalid in H by done. discriminate.
Qed.

Lemma copy_fields_loop_returns_valid self todo acc attrs :
  copy_fields_loop self todo acc = Return attrs →
  Forall (fun f => isinstance_field f ForeignKey = true →
                   conversion_of self f = CONVERT ∨ conversion_of self f = PRESERVE) todo.
Proof.
  revert acc. induction todo as [|g todo IH]; intros acc H; simpl in H.
  - by apply Forall_nil.
  - destruct (copy_field self g) as [g'|] eqn:E; simpl in H; [|discriminate].
    apply Forall_cons. split; [by eapply copy_field_returns_valid|by eapply IH].
Qed.

Lemma extra_fields_lookup self model k a :
  get_extra_fields self model !! k = Some a →
  (k = "history_id" ∧ a = AField (set_primary_key true (plain_field AutoField "history_id")))
  ∨ (k = "history_date"
     ∧ a = AField (mkField DateTimeField "history_date" false false false false true
                     false false None "" (Some DefaultNow) None []))
  ∨ (k = "history_type"
     ∧ a = AField (mkField CharField "history_type" false false false false false
                     false false None "" None (Some 1)
                     [("+", "Created"); ("~", "Changed"); ("-", "Deleted")]))
  ∨ (k = "history_object" ∧ a = AHistoricalObjectDescriptor model)
  ∨ (k = "primary_model" ∧ a = APrimaryModel model)
  ∨ (k = "__unicode__" ∧ a = AUnicode).
Proof.
  unfold get_extra_fields. intros H.
  repeat (apply lookup_insert_Some in H as [[<- <-]|[_ H]]; [tauto|]).
  by rewrite lookup_empty in H.
Qed.

Lemma history_model_lookup self model hm :
  create_history_model self model = Return hm →
  ∃ attrs,
    copy_fields self model = Return attrs
    ∧ hm_name hm = "Historical" +:+ object_name model
    ∧ ∀ k, hm_attrs hm !! k =
           if bool_decide (k = "Meta") then Some (AMeta (get_meta_options self model))
           else match get_extra_fields self model !! k with
                | Some a => Some a
                | None => attrs !! k
                end.
Proof.
  unfold create_history_model. intros H.
  destruct (copy_fields self model) as [attrs|] eqn:E; simpl in H; [|discriminate].
  injection H as <-. exists attrs. split; [done|]. split; [done|]. intros k. simpl.
  unfold update. case_bool_decide as Hk.
  - subst k. apply lookup_union_Some_l. by rewrite lookup_singleton_eq.
  - rewrite lookup_union_r by (by rewrite lookup_singleton_ne).
    destruct (get_extra_fields self model !! k) as [a|] eqn:Ha.
    + by apply lookup_union_Some_l.
    + by rewrite lookup_union_r.
Qed.

(** X1. A foreign key under CONVERT, the policy of every key the policy map
    does not name, is replaced by a copy of the primary key field of its
    target: the copy is stored under the attribute name of the key
    ([name_id]), takes [null] and [blank] from the key, is an
    [IntegerField] when the target's key is an [AutoField] and of the
    target's class otherwise, is neither a primary key nor unique, and is
    indexed when the target's key was a key or indexed. *)
Theorem converted_key_is_a_copy_of_the_target_key self model field r attrs :
  isinstance_field field ForeignKey = true →
  key_conversions self !! name field = None
  ∨ key_conversions self !! name field = Some CONVERT →
  rel field = Some r →
  field ∈ fields model →
  copy_fields self model = Return attrs →
  (∀ g g', g ∈ fields model → copy_field self g = Return g' →
           name g' = name field +:+ "_id" → g = field) →
  ∃ field',
    attrs !! (name field +:+ "_id") = Some (AField field')
    ∧ name field' = name field +:+ "_id"
    ∧ null field' = null field
    ∧ blank field' = blank field
    ∧ __class__ field' =
        (if isinstance_field (to_pk r) AutoField then IntegerField
         else __class__ (to_pk r))
    ∧ primary_key field' = false
    ∧ _unique field' = false
    ∧ db_index field' =
        db_index (to_pk r) || primary_key (to_pk r) || _unique (to_pk r)
    ∧ rel field' = rel (to_pk r)
    ∧ max_length field' = max_length (to_pk r).
Proof.
  intros Hfk Hpolicy Hr Hin Hcopy Huniq.
  assert (Hc : conversion_of self field = CONVERT).
  { unfold conversion_of. by destruct Hpolicy as [-> | ->]. }
  pose proof (copy_field_convert self field r Hfk Hc Hr) as E.
  assert (Han : get_attname field = name field +:+ "_id").
  { unfold get_attname. by rewrite Hfk. }
  rewrite Han in E.
  eexists. split; [|split].
  - eapply copy_fields_loop_lookup; [exact Hcopy| |].
    + intros g g' Hg Hg' Hn. pose proof (Huniq g g' Hg Hg' Hn) as ->.
      rewrite E in Hg'. by injection Hg'.
    + left. exists field. by rewrite finish_name.
  - by rewrite finish_name.
  - destruct (finish_keeps
                (set_name (name field +:+ "_id")
                   (set_blank (blank field) (set_null (null field) (to_pk r)))))
      as (-> & -> & _ & _ & -> & _).
    rewrite finish_class, finish_primary_key, finish__unique, finish_db_index, finish_rel.
    done.
Qed.

(** X2. The historical model has one key, its own: [history_id], an
    [AutoField] that is the primary key. No other column is a primary key,
    unique or an [AutoField], whatever the tracked model declares. *)
Theorem history_id_is_the_only_key self model hm :
  create_history_model self model = Return hm →
  hm_attrs hm !! "history_id"
    = Some (AField (set_primary_key true (plain_field AutoField "history_id")))
  ∧ ∀ k f, hm_attrs hm !! k = Some (AField f) → k ≠ "history_id" →
      primary_key f = false ∧ unique f = false ∧ isinstance_field f AutoField = false.
Proof.
  intros (attrs & Hcopy & _ & Hlook)%history_model_lookup. split.
  - by rewrite Hlook.
  - intros k f Hk Hne. rewrite Hlook in Hk. case_bool_decide; [discriminate|].
    destruct (get_extra_fields self model !! k) as [a|] eqn:Ha.
    + injection Hk as ->.
      apply extra_fields_lookup in Ha
        as [[? _]|[[_ Ha]|[[_ Ha]|[[_ Ha]|[[_ Ha]|[_ Ha]]]]]];
        first [contradiction | discriminate | by injection Ha as ->].
    + destruct (copy_fields_origin _ _ _ _ _ Hcopy Hk) as (g & _ & Hc & _).
      apply copy_field_finished in Hc as [g0 ->].
      unfold unique. rewrite finish_primary_key, finish__unique, finish_not_auto. done.
Qed.

(** X3. A field that is not a foreign key is copied under its own name.
    The copy keeps the name, [null], [blank], the options, the default,
    [max_length] and the choices; an [AutoField] becomes an [IntegerField];
    the copy is no primary key and not unique, and it is indexed when the
    field was a key, unique or indexed. A field that is none of [AutoField],
    date or time, primary key or unique is copied as it is. *)
Theorem plain_field_is_copied_without_its_constraints self model field attrs :
  isinstance_field field ForeignKey = false →
  field ∈ fields model →
  copy_fields self model = Return attrs →
  (∀ g g', g ∈ fields model → copy_field self g = Return g' →
           name g' = name field → g = field) →
  ∃ field',
    attrs !! name field = Some (AField field')
    ∧ name field' = name field
    ∧ null field' = null field ∧ blank field' = blank field
    ∧ field_default field' = field_default field
    ∧ max_length field' = max_length field ∧ choices field' = choices field
    ∧ __class__ field' =
        (if isinstance_field field AutoField then IntegerField else __class__ field)
    ∧ primary_key field' = false
    ∧ unique field' = false
    ∧ db_index field' = db_index field || primary_key field || _unique field
    ∧ (isinstance_field field AutoField = false → is_date_or_time field = false →
       primary_key field = false → _unique field = false → field' = field).
Proof.
  intros Hfk Hin Hcopy Huniq.
  pose proof (copy_field_plain self field Hfk) as E.
  exists (finish field). split.
  - eapply copy_fields_loop_lookup; [exact Hcopy| |].
    + intros g g' Hg Hg' Hn. pose proof (Huniq g g' Hg Hg' Hn) as ->.
      rewrite E in Hg'. by injection Hg'.
    + left. exists field. by rewrite finish_name.
  - destruct (finish_keeps field) as (-> & -> & _ & -> & -> & ->).
    unfold unique.
    rewrite finish_name, finish_class, finish_primary_key, finish__unique, finish_db_index.
    repeat (split; [done|]). apply finish_identity.
Qed.

(** X4. With the relations of the model declared, [copy_fields] returns
    exactly when every foreign key has the policy CONVERT or PRESERVE, and
    then [create_history_model] returns the model named [Historical] followed
    by the name of the tracked model; otherwise both raise the
    [ValueError]. *)
Theorem copy_fields_returns_iff_policies_are_valid self model :
  relations_declared model →
  ((∃ attrs, copy_fields self model = Return attrs) ↔ policies_valid self model)
  ∧ (policies_valid self model →
     ∃ hm, create_history_model self model = Return hm
           ∧ hm_name hm = "Historical" +:+ object_name model)
  ∧ (¬ policies_valid self model →
     copy_fields self model = Raise invalid_conversion
     ∧ create_history_model self model = Raise invalid_conversion).
Proof.
  intros Hrel.
  assert (Hret : policies_valid self model → ∃ attrs, copy_fields self model = Return attrs).
  { intros Hv. by apply copy_fields_loop_valid. }
  split; [split; [intros [attrs H]; by eapply copy_fields_loop_returns_valid|exact Hret]|].
  split.
  - intros [attrs E]%Hret. unfold create_history_model. rewrite E. simpl. eauto.
  - intros Hbad. apply not_Forall_Exists in Hbad; [|intros f; apply _].
    apply Exists_exists in Hbad as (f & Hin & Hf).
    assert (Hfk : isinstance_field f ForeignKey = true).
    { destruct (isinstance_field f ForeignKey) eqn:Hc; [done|].
      exfalso. apply Hf. intros Hx. congruence. }
    assert (E : copy_fields self model = Raise invalid_conversion).
    { eapply copy_fields_loop_invalid; [exact Hrel|exact Hin|].
      apply copy_field_invalid; [done| |]; intros Hc; apply Hf; tauto. }
    split; [exact E|]. unfold create_history_model. by rewrite E.
Qed.

(** X5. The dictionary of [copy_fields] keeps one copy per name: of the
    fields whose copies take the same name, the one declared last is the one
    stored; the fields declared before it leave no trace under that name. *)
Theorem last_copy_under_a_name_is_kept self model pre field post field' attrs :
  fields model = pre ++ field :: post →
  copy_fields self model = Return attrs →
  copy_field self field = Return field' →
  (∀ h h', h ∈ post → copy_field self h = Return h' → name h' ≠ name field') →
  attrs !! name field' = Some (AField field').
Proof.
  unfold copy_fields. intros -> Hcopy E Hlater.
  rewrite copy_fields_loop_app in Hcopy.
  destruct (copy_fields_loop self pre _) as [acc|]; simpl in Hcopy; [|discriminate].
  rewrite E in Hcopy. simpl in Hcopy.
  rewrite (copy_fields_loop_untouched _ _ _ _ _ Hcopy Hlater).
  by rewrite lookup_insert_eq.
Qed.

(** X6. The attributes of the historical model: its name is [Historical]
    followed by the name of the tracked model; [Meta] orders it by
    descending [history_id], which is also [get_latest_by]; the bookkeeping
    attributes of [get_extra_fields] are there whatever the tracked model
    declares, also when a tracked field has one of their names, and
    [history_object] and [primary_model] hold the tracked model; under every
    other name the attribute is the one [copy_fields] gave. *)
Theorem bookkeeping_attributes_replace_copies self model hm :
  create_history_model self model = Return hm →
  ∃ attrs,
    copy_fields self model = Return attrs
    ∧ hm_name hm = "Historical" +:+ object_name model
    ∧ hm_attrs hm !! "Meta" = Some (AMeta (mkMetaOptions ["-history_id"] "history_id"))
    ∧ hm_attrs hm !! "history_object" = Some (AHistoricalObjectDescriptor model)
    ∧ hm_attrs hm !! "primary_model" = Some (APrimaryModel model)
    ∧ hm_attrs hm !! "__unicode__" = Some AUnicode
    ∧ (∃ d t, hm_attrs hm !! "history_date" = Some (AField d)
              ∧ __class__ d = DateTimeField ∧ field_default d = Some DefaultNow
              ∧ db_index d = true
              ∧ hm_attrs hm !! "history_type" = Some (AField t)
              ∧ __class__ t = CharField ∧ max_length t = Some 1
              ∧ (choices t).*1 = ["+"; "~"; "-"])
    ∧ (∀ k, k ∉ ["Meta"; "history_id"; "history_date"; "history_type"; "history_object";
                 "primary_model"; "__unicode__"] →
         hm_attrs hm !! k = attrs !! k).
Proof.
  intros (attrs & Hcopy & Hname & Hlook)%history_model_lookup.
  exists attrs. split; [done|]. split; [done|].
  repeat (split; [by rewrite Hlook|]). split.
  - do 2 eexists. rewrite !Hlook. simpl. done.
  - intros k Hk. rewrite Hlook.
    rewrite bool_decide_eq_false_2 by (intros ->; apply Hk; set_solver).
    destruct (get_extra_fields self model !! k) as [a|] eqn:Ha; [|done].
    exfalso. apply Hk.
    apply extra_fields_lookup in Ha
      as [[-> _]|[[-> _]|[[-> _]|[[-> _]|[[-> _]|[-> _]]]]]]; set_solver.
Qed.

(* ===================================================================== *)
(** ** More on the capture of a snapshot *)
(* ===================================================================== *)

Lemma collect_attrs_app self instance pre post acc :
  collect_attrs self instance (pre ++ post) acc =
    (attrs <- collect_attrs self instance pre acc ;;
     collect_attrs self instance post attrs).
Proof.
  revert acc. induction pre as [|f pre IH]; intros acc; simpl; [done|].
  match goal with |- Py.bind ?c _ = _ => destruct c; simpl; [|done] end.
  destruct (getattr instance (attname f)); simpl; [apply IH|done].
Qed.

Lemma collect_attrs_columns_only self i i' todo acc :
  Forall (fun f => preserved self f = false) todo →
  Forall (fun f => getattr i' (attname f) = getattr i (attname f)) todo →
  collect_attrs self i' todo acc = collect_attrs self i todo acc.
Proof.
  revert acc. induction todo as [|f todo IH]; intros acc Hp Hsame; simpl; [done|].
  apply Forall_cons in Hp as [Hf Hp]. apply Forall_cons in Hsame as [-> Hsame].
  unfold preserved, conversion_of in Hf.
  destruct (isinstance_field f ForeignKey); simpl in *.
  - rewrite Hf. simpl. destruct (getattr i (attname f)); simpl; [by apply IH|done].
  - destruct (getattr i (attname f)); simpl; [by apply IH|done].
Qed.

Lemma not_suppressed c msg :
  c ≠ HistoricalIntegrityError →
  isinstance (Raised c msg) HistoricalIntegrityError = false.
Proof. destruct c; intros H; vm_compute; congruence. Qed.

(** X7. When no foreign key of the model is PRESERVEd, a capture reads the
    columns of the instance and nothing else: two instances of the class
    that hold the same column values are captured alike, whatever
    dereferencing their foreign keys would do; a CONVERTed key whose target
    is gone is never looked at. *)
Theorem capture_without_preserved_keys_reads_columns_only
    db_error self instance instance' st :
  Forall (fun f => preserved self f = false) (fields (_meta instance)) →
  _meta instance' = _meta instance →
  class_attrs instance' = class_attrs instance →
  Forall (fun f => getattr instance' (attname f) = getattr instance (attname f))
    (fields (_meta instance)) →
  (∀ type, create_historical_record db_error self instance' type st
           = create_historical_record db_error self instance type st)
  ∧ (∀ created, post_save db_error self instance' created st
                = post_save db_error self instance created st)
  ∧ post_delete db_error self instance' st = post_delete db_error self instance st.
Proof.
  intros Hp Hmeta Hclass Hsame.
  assert (E : ∀ type, create_historical_record db_error self instance' type st
                      = create_historical_record db_error self instance type st).
  { intros type. unfold create_historical_record, ebind, lift, getattr_manager.
    rewrite Hclass, Hmeta. by rewrite (collect_attrs_columns_only self instance instance'). }
  split; [exact E|]. split.
  - intros created. unfold post_save. apply E.
  - unfold post_delete, try_except. by rewrite E.
Qed.

(** X8. The manager is looked up before anything else: on an instance of
    a class that has no attribute under [manager_name], a capture raises
    [AttributeError] for that name with the store as it was, before any
    foreign key is dereferenced or column read; [post_delete] lets the error
    through like [post_save]. *)
Theorem capture_needs_the_manager db_error self instance st :
  class_attrs instance !! manager_name self = None →
  (∀ type, create_historical_record db_error self instance type st
           = (Raise (Raised AttributeError (manager_name self)), st))
  ∧ (∀ created, post_save db_error self instance created st
                = (Raise (Raised AttributeError (manager_name self)), st))
  ∧ post_delete db_error self instance st
    = (Raise (Raised AttributeError (manager_name self)), st).
Proof.
  intros H.
  assert (E : ∀ type, create_historical_record db_error self instance type st
                      = (Raise (Raised AttributeError (manager_name self)), st)).
  { intros type. unfold create_historical_record, ebind, lift, getattr_manager.
    by rewrite H. }
  split; [exact E|]. split.
  - intros created. apply E.
  - unfold post_delete, try_except. rewrite E. by rewrite not_suppressed.
Qed.

(** X9. A tracked model with a column whose attribute name is
    [history_type] cannot be captured: the value of the column and the
    marker are both passed to [create] as [history_type], the call is a
    [TypeError], no row is written, and [post_delete] lets the error through
    like [post_save]. *)
Theorem column_named_history_type_is_a_type_error db_error self instance hm f st :
  class_attrs instance !! manager_name self = Some hm →
  Forall (fun f => ∃ v, getattr instance (attname f) = Return v)
    (fields (_meta instance)) →
  resolves self instance →
  f ∈ fields (_meta instance) →
  attname f = "history_type" →
  (∀ type, create_historical_record db_error self instance type st
           = (Raise multiple_values, st))
  ∧ (∀ created, post_save db_error self instance created st
                = (Raise multiple_values, st))
  ∧ post_delete db_error self instance st = (Raise multiple_values, st).
Proof.
  intros Hm Hread Hres Hin Hname.
  assert (E : ∀ type, create_historical_record db_error self instance type st
                      = (Raise multiple_values, st)).
  { intros type. rewrite (capture_unfold _ _ _ _ _ _ Hm).
    destruct (collect_attrs_returns self instance _ ∅ Hread Hres) as (attrs & -> & Hlook).
    unfold call_create. rewrite bool_decide_eq_true_2; [done|].
    rewrite Hlook. rewrite bool_decide_eq_true_2.
    - rewrite Forall_forall in Hread. destruct (Hread f Hin) as [v Hv].
      rewrite <- Hname, Hv. eauto.
    - rewrite <- Hname. apply list_elem_of_fmap. eauto. }
  split; [exact E|]. split.
  - intros created. apply E.
  - unfold post_delete, try_except. rewrite E. reflexivity.
Qed.

(** X10. Only the [DoesNotExist] of the target is turned into a
    [HistoricalIntegrityError]. When the first PRESERVEd key that fails to
    dereference raises anything else, that exception leaves the capture as
    it is, no row is written, and [post_delete] raises it too (unless it is
    itself a [HistoricalIntegrityError]). *)
Theorem other_errors_of_a_dereference_are_not_signalled
    db_error self instance hm pre f post r e st :
  class_attrs instance !! manager_name self = Some hm →
  fields (_meta instance) = pre ++ f :: post →
  Forall (fun f => ∃ v, getattr instance (attname f) = Return v) pre →
  Forall (fun f => preserved self f = true → dereferences instance f) pre →
  preserved self f = true →
  rel f = Some r →
  getattr instance (name f) = Raise e →
  isinstance e (DoesNotExist (to r)) = false →
  (∀ type, create_historical_record db_error self instance type st = (Raise e, st))
  ∧ (isinstance e HistoricalIntegrityError = false →
     post_delete db_error self instance st = (Raise e, st)).
Proof.
  intros Hm Hfields Hread Hres Hp Hr He Hi.
  assert (E : ∀ type, create_historical_record db_error self instance type st
                      = (Raise e, st)).
  { intros type. rewrite (capture_unfold _ _ _ _ _ _ Hm), Hfields, collect_attrs_app.
    destruct (collect_attrs_returns self instance pre ∅ Hread Hres) as (attrs & -> & _).
    simpl. unfold preserved, conversion_of in Hp. apply andb_true_iff in Hp as [-> ->].
    by rewrite He, Hr, Hi. }
  split; [exact E|]. intros Hn. unfold post_delete, try_except. by rewrite E, Hn.
Qed.

(* ===================================================================== *)
(** ** The history object of a row *)
(* ===================================================================== *)




(* ===================================================================== *)
(** ** The columns a capture fills *)
(* ===================================================================== *)

Lemma finish_is_foreign_key g :
  isinstance_field (finish g) ForeignKey = isinstance_field g ForeignKey.
Proof.
  unfold isinstance_field at 1. rewrite finish_class.
  unfold isinstance_field. destruct (__class__ g); reflexivity.
Qed.

Lemma elem_of_columns_2 hm k f :
  hm_attrs hm !! k = Some (AField f) → f ∈ columns hm.
Proof.
  intros H. unfold columns. apply list_elem_of_omap. exists (k, AField f).
  split; [by apply elem_of_map_to_list|done].
Qed.

Lemma copy_field_attname self f f' :
  copy_field self f = Return f' →
  (∀ r, isinstance_field f ForeignKey = true → preserved self f = false →
        rel f = Some r → isinstance_field (to_pk r) ForeignKey = false) →
  attname f' = attname f.
Proof.
  intros Hc Hpk. unfold attname, get_attname.
  destruct (isinstance_field f ForeignKey) eqn:Hfk.
  - destruct (decide (conversion_of self f = CONVERT)) as [Hcv|Hcv].
    + destruct (rel f) as [r|] eqn:Hr.
      * rewrite (copy_field_convert self f r Hfk Hcv Hr) in Hc. injection Hc as <-.
        rewrite finish_is_foreign_key, finish_name. unfold isinstance_field. simpl.
        unfold isinstance_field in Hpk. rewrite (Hpk r); [|done| |done].
        -- unfold get_attname. by rewrite Hfk.
        -- unfold preserved. rewrite Hcv. by rewrite andb_false_r.
      * unfold copy_field, conversion_of in *. rewrite Hfk, Hcv, Hr in Hc. discriminate.
    + destruct (decide (conversion_of self f = PRESERVE)) as [Hp|Hp].
      * destruct (rel f) as [r|] eqn:Hr.
        -- rewrite (copy_field_preserve self f r Hfk Hp Hr) in Hc. injection Hc as <-.
           rewrite finish_is_foreign_key, finish_name. unfold isinstance_field in *.
           simpl. by rewrite Hfk.
        -- unfold copy_field, conversion_of in *. rewrite Hfk, Hp, Hr in Hc.
           discriminate.
      * rewrite copy_field_invalid in Hc by done. discriminate.
  - rewrite (copy_field_plain self f Hfk) in Hc. injection Hc as <-.
    by rewrite finish_is_foreign_key, finish_name, Hfk.
Qed.

(** X12. What a capture passes to [create] fits the historical model: the
    copy of a tracked field is a column of the historical model and the
    attribute name of that column is the one [create_historical_record]
    stores the value under ([name] for a plain field, [name_id] for a
    foreign key, converted or preserved), provided the copy is not replaced
    by another copy or a bookkeeping attribute, and the primary key that
    stands in for a converted key is not itself a foreign key. *)
Theorem captured_attribute_names_a_column self model hm f f' :
  create_history_model self model = Return hm →
  f ∈ fields model →
  copy_field self f = Return f' →
  (∀ g g', g ∈ fields model → copy_field self g = Return g' →
           name g' = name f' → g = f) →
  name f' ∉ ["Meta"; "history_id"; "history_date"; "history_type"; "history_object";
             "primary_model"; "__unicode__"] →
  (∀ r, isinstance_field f ForeignKey = true → preserved self f = false →
        rel f = Some r → isinstance_field (to_pk r) ForeignKey = false) →
  f' ∈ columns hm ∧ attname f' = attname f.
Proof.
  intros Hhm Hin Hc Huniq Hname Hpk. split; [|by eapply copy_field_attname].
  destruct (history_model_lookup _ _ _ Hhm) as (attrs & Hcopy & _ & Hlook).
  apply (elem_of_columns_2 hm (name f')). rewrite Hlook.
  rewrite bool_decide_eq_false_2 by (intros E; apply Hname; rewrite E; set_solver).
  destruct (get_extra_fields self model !! name f') as [a|] eqn:Ha.
  - exfalso. apply Hname.
    apply extra_fields_lookup in Ha
      as [[-> _]|[[-> _]|[[-> _]|[[-> _]|[[-> _]|[-> _]]]]]]; set_solver.
  - eapply copy_fields_loop_lookup; [exact Hcopy| |].
    + intros g g' Hg Hg' Hn. pose proof (Huniq g g' Hg Hg' Hn) as ->. congruence.
    + left. eauto.
Qed.

(** X13. A declaration made without [key_conversions] converts every
    foreign key: for a model whose relations are declared, and whose targets
    have primary keys that are not foreign keys themselves, the historical
    model is built and none of its columns is a relation. *)
Theorem default_declaration_keeps_no_relation oid properties model :
  relations_declared model →
  Forall (fun f => ∀ r, rel f = Some r → isinstance_field (to_pk r) ForeignKey = false)
    (fields model) →
  ∃ hm,
    create_history_model (__init__ oid None properties) model = Return hm
    ∧ Forall (fun c => isinstance_field c ForeignKey = false) (columns hm).
Proof.
  intros Hrel Hpk.
  assert (Hconv : ∀ f, conversion_of (__init__ oid None properties) f = CONVERT).
  { intros f. unfold conversion_of. simpl. by rewrite lookup_empty. }
  destruct (copy_fields_loop_valid (__init__ oid None properties) (fields model)
              {[ "__module__" := AModule (__module__ model) ]} Hrel) as [attrs Hcopy].
  { apply Forall_forall. intros f _ _. left. apply Hconv. }
  eexists. split.
  { unfold create_history_model, copy_fields. rewrite Hcopy. reflexivity. }
  apply Forall_forall. intros c [k Hk]%elem_of_columns. simpl in Hk. unfold update in Hk.
  apply lookup_union_Some_raw in Hk as [Hk|[_ Hk]].
  { apply lookup_singleton_Some in Hk as [_ Hk]. discriminate. }
  apply lookup_union_Some_raw in Hk as [Hk|[_ Hk]].
  - apply extra_fields_lookup in Hk
      as [[_ Ha]|[[_ Ha]|[[_ Ha]|[[_ Ha]|[[_ Ha]|[_ Ha]]]]]];
      first [discriminate | injection Ha as ->; reflexivity].
  - destruct (copy_fields_origin _ _ _ _ _ Hcopy Hk) as (g & Hg & Hc & _).
    unfold relations_declared in Hrel. rewrite Forall_forall in Hpk, Hrel.
    destruct (isinstance_field g ForeignKey) eqn:Hfk.
    + destruct (Hrel g Hg Hfk) as [r Hr].
      rewrite (copy_field_convert _ g r Hfk (Hconv g) Hr) in Hc. injection Hc as <-.
      rewrite finish_is_foreign_key. unfold isinstance_field. simpl.
      by apply (Hpk g Hg r).
    + rewrite (copy_field_plain _ g Hfk) in Hc. injection Hc as <-.
      by rewrite finish_is_foreign_key.
Qed.

(* ===================================================================== *)
(** ** What finalization leaves on the classes *)
(* ===================================================================== *)

Lemma _finalize_state self sender hm w :
  create_history_model self sender = Return hm →
  ∃ w',
    _finalize self sender w = (Return tt, w')
    ∧ descriptors w' = <[(object_name sender, manager_name self) := hm]> (descriptors w)
    ∧ PATCHED_META_CLASSES w' = {[meta_class sender]} ∪ PATCHED_META_CLASSES w
    ∧ (meta_class sender ∈ PATCHED_META_CLASSES w → init_name_map w' = init_name_map w)
    ∧ (meta_class sender ∉ PATCHED_META_CLASSES w →
       init_name_map w' =
         <[meta_class sender :=
             PatchedInitNameMap self sender
               (default OriginalInitNameMap (init_name_map w !! meta_class sender))]>
           (init_name_map w))
    ∧ properties w' =
        (if add_history_properties self
         then history_properties sender ∪ properties w
         else properties w)
    ∧ same_subscriptions w w'
    ∧ _name_map w' = _name_map w
    ∧ HISTORICAL_RECORD_CLASSES w' = HISTORICAL_RECORD_CLASSES w
    ∧ pending_lookups w' = pending_lookups w
    ∧ cells w' = cells w.
Proof.
  intros Hhm. unfold _finalize, monkey_patch_name_map, monkey_patch_history_properties,
    history_properties. eff. rewrite Hhm. simpl.
  destruct (decide (meta_class sender ∈ PATCHED_META_CLASSES w)) as [Hin|Hin].
  - rewrite bool_decide_eq_true_2 by done.
    destruct (add_history_properties self); simpl;
      (eexists; split; [reflexivity|]; simpl;
       split; [done|];
       split; [symmetry; apply subseteq_union_1_L; by apply singleton_subseteq_l|];
       split; [done|];
       split; [done|]; split; [done|]; split; [by repeat split|done]).
  - rewrite bool_decide_eq_false_2 by done.
    destruct (add_history_properties self); simpl;
      (eexists; split; [reflexivity|]; simpl;
       split; [done|]; split; [done|]; split; [done|];
       split; [done|]; split; [done|]; split; [by repeat split|done]).
Qed.

(** X14. [_finalize], when the historical model can be built: the manager
    of that model is set on the tracked class under [manager_name]; the class
    of the options object is marked as patched, and its [init_name_map] is
    replaced, by a closure over this declaration and this class, only when it
    was not marked before; the two date properties are added exactly when
    the declaration asks for them; subscriptions, reported errors and stored
    name maps are as they were. *)
Theorem finalize_attaches_the_manager_and_patches_once self sender hm w :
  create_history_model self sender = Return hm →
  ∃ w',
    _finalize self sender w = (Return tt, w')
    ∧ descriptors w' = <[(object_name sender, manager_name self) := hm]> (descriptors w)
    ∧ PATCHED_META_CLASSES w' = {[meta_class sender]} ∪ PATCHED_META_CLASSES w
    ∧ (meta_class sender ∈ PATCHED_META_CLASSES w → init_name_map w' = init_name_map w)
    ∧ (meta_class sender ∉ PATCHED_META_CLASSES w →
       init_name_map w' =
         <[meta_class sender :=
             PatchedInitNameMap self sender
               (default OriginalInitNameMap (init_name_map w !! meta_class sender))]>
           (init_name_map w))
    ∧ properties w' =
        (if add_history_properties self
         then history_properties sender ∪ properties w
         else properties w)
    ∧ same_subscriptions w w'
    ∧ _name_map w' = _name_map w
    ∧ HISTORICAL_RECORD_CLASSES w' = HISTORICAL_RECORD_CLASSES w.
Proof.
  intros Hhm.
  destruct (_finalize_state self sender hm w Hhm) as (w' & H & ? & ? & ? & ? & ? & ? & ? & ? & _).
  exists w'. done.
Qed.

(** X15. The class statement of a tracked model without foreign keys, in
    a process where nothing else listens to [class_prepared]: when it ends,
    the model is among the tracked classes, the declaration has its name, its
    [finalize] is the receiver of [class_prepared], its [post_save] and
    [post_delete] are connected for the model, and the manager of the
    historical model is on the class under the declared name; nothing is
    left waiting. *)
Theorem declaration_without_keys_is_finalized_at_once self cls name hm w :
  class_prepared w = [] →
  get_field_dependencies (set_manager_name name self) cls = [] →
  create_history_model (set_manager_name name self) cls = Return hm →
  ∃ w',
    declare_class cls [(self, name)] w = (Return tt, w')
    ∧ object_name cls ∈ HISTORICAL_RECORD_CLASSES w'
    ∧ class_prepared w'
      = [mkReceiver (set_manager_name name self) m_finalize (object_name cls)]
    ∧ post_save_receivers w'
      = connect (mkReceiver (set_manager_name name self) m_post_save (object_name cls))
          (post_save_receivers w)
    ∧ post_delete_receivers w'
      = connect (mkReceiver (set_manager_name name self) m_post_delete (object_name cls))
          (post_delete_receivers w)
    ∧ descriptors w' !! (object_name cls, name) = Some hm
    ∧ meta_class cls ∈ PATCHED_META_CLASSES w'
    ∧ pending_lookups w' = pending_lookups w
    ∧ cells w' = cells w.
Proof.
  intros Hnone Hdeps Hhm.
  unfold declare_class, contribute_all, contribute_to_class, send_class_prepared. eff.
  assert (Hcp : ∀ w0, class_prepared w0 = [] →
            connect (mkReceiver (set_manager_name name self) m_finalize (object_name cls))
              (class_prepared w0)
            = [mkReceiver (set_manager_name name self) m_finalize (object_name cls)]).
  { intros w0 ->. reflexivity. }
  assert (Hcp' : class_prepared
                   (if bool_decide (object_name cls ∈ HISTORICAL_RECORD_CLASSES w)
                    then set_app_errors
                           (<[object_name cls :=
                                "Models cannot have more than one HistoricalRecords field."]>
                              (app_errors w)) w
                    else w) = []).
  { by destruct (bool_decide _). }
  rewrite (Hcp _ Hcp'). simpl. rewrite bool_decide_eq_true_2 by done.
  unfold finalize. eff. rewrite Hdeps. simpl.
  match goal with |- context [_finalize _ _ ?W] =>
    destruct (_finalize_state (set_manager_name name self) cls hm W Hhm)
      as (w' & Hrun & Hdesc & Hpatched & _ & _ & _ & Hsubs & _ & Hhrc & Hpend & Hcells)
  end.
  rewrite Hrun. simpl. exists w'. split; [done|].
  destruct Hsubs as (Hps & Hpd & Hcp2 & _).
  rewrite Hps, Hpd, Hcp2, Hhrc, Hdesc, Hpatched, Hpend, Hcells. simpl.
  split; [apply elem_of_union; left; by apply elem_of_singleton|]. split; [done|].
  destruct (bool_decide (object_name cls ∈ HISTORICAL_RECORD_CLASSES w)); simpl;
    (split; [done|]); (split; [done|]);
    (split; [by rewrite lookup_insert_eq|]);
    (split; [apply elem_of_union; left; by apply elem_of_singleton|]); done.
Qed.

(* ===================================================================== *)
(** ** The properties at the test application *)
(* ===================================================================== *)

Ltac not_listed :=
  let H := fresh in
  intros H; repeat (apply elem_of_cons in H as [H|H]; [discriminate|]);
  by apply elem_of_nil in H.

Ltac only_copy Hg Hc Hn :=
  apply list_elem_of_In in Hg; simpl in Hg;
  repeat (destruct Hg as [<-|Hg];
          [vm_compute in Hc; injection Hc as <-; vm_compute in Hn;
           first [discriminate|reflexivity]|]);
  destruct Hg.

(** [converted_key_is_a_copy_of_the_target_key] at the test application. *)
Lemma converted_key_is_a_copy_of_the_target_key_witness :
  ∃ attrs field',
    copy_fields history ConvertFkToNonversionedModel = Return attrs
    ∧ attrs !! "fk_id" = Some (AField field')
    ∧ __class__ field' = IntegerField
    ∧ primary_key field' = false
    ∧ db_index field' = true
    ∧ rel field' = None.
Proof.
  set (attrs := value_or ∅ (copy_fields history ConvertFkToNonversionedModel)).
  assert (E : copy_fields history ConvertFkToNonversionedModel = Return attrs)
    by (apply result_returned; vm_compute; reflexivity).
  destruct (converted_key_is_a_copy_of_the_target_key history ConvertFkToNonversionedModel
              (fk_field "ConvertFkToNonversionedModel" (Some "rel_c"))
              (mkRel "NonversionedModel" id_field (Some "rel_c")) attrs)
    as (field' & Hlook & _ & _ & _ & Hclass & Hpk & _ & Hindex & Hrel & _);
    [reflexivity|by left|reflexivity| |exact E| |].
  - right. left.
  - intros g g' Hg Hc Hn. only_copy Hg Hc Hn.
  - exists attrs, field'. done.
Defined.

(** [history_id_is_the_only_key] at the test application. *)
Lemma history_id_is_the_only_key_witness :
  create_history_model history VersionedModel
    = Return (history_model_of history VersionedModel)
  ∧ ∃ f, hm_attrs (history_model_of history VersionedModel) !! "id" = Some (AField f)
         ∧ __class__ f = IntegerField
         ∧ primary_key f = false ∧ unique f = false.
Proof.
  split; [exact history_model_of_versioned|].
  destruct (history_id_is_the_only_key history VersionedModel
              (history_model_of history VersionedModel) history_model_of_versioned)
    as [_ Hothers].
  assert (Hid : hm_attrs (history_model_of history VersionedModel) !! "id"
                = Some (AField (mkField IntegerField "id" false false false false true
                                  false false None "" None None [])))
    by (by vm_compute).
  eexists. split; [exact Hid|]. split; [reflexivity|].
  destruct (Hothers "id" _ Hid) as (Hpk & Hu & _); [discriminate|done].
Defined.

(** [plain_field_is_copied_without_its_constraints] at the test application. *)
Lemma plain_field_is_copied_without_its_constraints_witness :
  ∃ attrs,
    copy_fields history VersionedModel = Return attrs
    ∧ attrs !! "characters" = Some (AField characters_field).
Proof.
  set (attrs := value_or ∅ (copy_fields history VersionedModel)).
  assert (E : copy_fields history VersionedModel = Return attrs)
    by (apply result_returned; vm_compute; reflexivity).
  destruct (plain_field_is_copied_without_its_constraints history VersionedModel
              characters_field attrs)
    as (field' & Hlook & _ & _ & _ & _ & _ & _ & _ & _ & _ & _ & Hsame);
    [reflexivity| |exact E| |].
  - right. right. left.
  - intros g g' Hg Hc Hn. only_copy Hg Hc Hn.
  - exists attrs. split; [exact E|]. rewrite <- (Hsame eq_refl eq_refl eq_refl eq_refl).
    exact Hlook.
Defined.

Lemma relations_declared_preserve_model :
  relations_declared PreserveFkToNonversionedModel.
Proof.
  unfold relations_declared.
  each_field ltac:(intros Hfk; first [by vm_compute in Hfk | by eexists]).
Qed.

(** [copy_fields_returns_iff_policies_are_valid] at the test application. *)
Lemma copy_fields_returns_iff_policies_are_valid_witness :
  relations_declared PreserveFkToNonversionedModel
  ∧ policies_valid history_preserve PreserveFkToNonversionedModel
  ∧ ∃ hm, create_history_model history_preserve PreserveFkToNonversionedModel = Return hm
          ∧ hm_name hm = "HistoricalPreserveFkToNonversionedModel".
Proof.
  split; [exact relations_declared_preserve_model|].
  destruct (copy_fields_returns_iff_policies_are_valid history_preserve
              PreserveFkToNonversionedModel relations_declared_preserve_model)
    as (_ & Hret & _).
  assert (Hvalid : policies_valid history_preserve PreserveFkToNonversionedModel).
  { unfold policies_valid.
    each_field ltac:(intros Hfk; first [by vm_compute in Hfk | by right]). }
  split; [exact Hvalid|]. exact (Hret Hvalid).
Defined.

(** [last_copy_under_a_name_is_kept] at the test application. *)
Lemma last_copy_under_a_name_is_kept_witness :
  ∃ attrs,
    copy_fields history ClashingModel = Return attrs
    ∧ attrs !! "fk_id" = Some (AField (plain_field IntegerField "fk_id")).
Proof.
  set (attrs := value_or ∅ (copy_fields history ClashingModel)).
  assert (E : copy_fields history ClashingModel = Return attrs)
    by (apply result_returned; vm_compute; reflexivity).
  exists attrs. split; [exact E|].
  apply (last_copy_under_a_name_is_kept history ClashingModel
           [id_field; fk_field "ClashingModel" None]
           (plain_field IntegerField "fk_id") [] (plain_field IntegerField "fk_id") attrs);
    [reflexivity|exact E|reflexivity|].
  intros h h' Hh. by apply elem_of_nil in Hh.
Defined.

(** [bookkeeping_attributes_replace_copies] at the test application. *)
Lemma bookkeeping_attributes_replace_copies_witness :
  ∃ attrs,
    copy_fields history VersionedModel = Return attrs
    ∧ hm_name (history_model_of history VersionedModel) = "HistoricalVersionedModel"
    ∧ hm_attrs (history_model_of history VersionedModel) !! "integer" = attrs !! "integer".
Proof.
  destruct (bookkeeping_attributes_replace_copies history VersionedModel
              (history_model_of history VersionedModel) history_model_of_versioned)
    as (attrs & Hcopy & Hname & _ & _ & _ & _ & _ & Hrest).
  exists attrs. split; [exact Hcopy|]. split; [exact Hname|]. apply Hrest. not_listed.
Defined.

(** [capture_without_preserved_keys_reads_columns_only] at the test application. *)
Lemma capture_without_preserved_keys_reads_columns_only_witness :
  create_historical_record accept_all history (converting target_gone "converted_nv_9")
    "-" empty_store
  = create_historical_record accept_all history (converting target_present "converted_nv_9")
      "-" empty_store.
Proof.
  destruct (capture_without_preserved_keys_reads_columns_only accept_all history
              (converting target_present "converted_nv_9")
              (converting target_gone "converted_nv_9") empty_store)
    as (Hsame & _); [|reflexivity|reflexivity| |apply Hsame].
  - each_field ltac:(by vm_compute).
  - each_field ltac:(by vm_compute).
Defined.

(** [capture_needs_the_manager] at the test application. *)
Lemma capture_needs_the_manager_witness :
  post_delete accept_all history unprepared empty_store
  = (Raise (Raised AttributeError "history"), empty_store).
Proof.
  destruct (capture_needs_the_manager accept_all history unprepared empty_store)
    as (_ & _ & Hdelete); [reflexivity|exact Hdelete].
Defined.

(** [column_named_history_type_is_a_type_error] at the test application. *)
Lemma column_named_history_type_is_a_type_error_witness :
  post_save accept_all history typed true empty_store = (Raise multiple_values, empty_store).
Proof.
  destruct (column_named_history_type_is_a_type_error accept_all history typed
              (history_model_of history TypedModel) (plain_field CharField "history_type")
              empty_store)
    as (_ & Hsave & _); [reflexivity| | | |reflexivity|apply Hsave].
  - each_field ltac:(vm_compute; eexists; reflexivity).
  - resolving_fixture.
  - right. left.
Defined.

(** [other_errors_of_a_dereference_are_not_signalled] at the test application. *)
Lemma other_errors_of_a_dereference_are_not_signalled_witness :
  post_delete accept_all history_preserve (referring (Raise connection_lost) "preserved_nv_9")
    empty_store
  = (Raise connection_lost, empty_store).
Proof.
  destruct (other_errors_of_a_dereference_are_not_signalled accept_all history_preserve
              (referring (Raise connection_lost) "preserved_nv_9")
              (history_model_of history_preserve PreserveFkToNonversionedModel)
              [id_field] (fk_field "PreserveFkToNonversionedModel" (Some "rel_p"))
              [characters_field] (mkRel "NonversionedModel" id_field (Some "rel_p"))
              connection_lost empty_store)
    as (_ & Hdelete);
    [reflexivity|reflexivity| | |reflexivity|reflexivity|reflexivity|reflexivity|].
  - each_field ltac:(vm_compute; eexists; reflexivity).
  - each_field ltac:(intros Hp; by vm_compute in Hp).
  - apply Hdelete. reflexivity.
Defined.


(** [captured_attribute_names_a_column] at the test application. *)
Lemma captured_attribute_names_a_column_witness :
  ∃ c, c ∈ columns (history_model_of history_preserve PreserveFkToNonversionedModel)
       ∧ isinstance_field c ForeignKey = true
       ∧ attname c = "fk_id".
Proof.
  set (c := value_or id_field
              (copy_field history_preserve
                 (fk_field "PreserveFkToNonversionedModel" (Some "rel_p")))).
  destruct (captured_attribute_names_a_column history_preserve
              PreserveFkToNonversionedModel
              (history_model_of history_preserve PreserveFkToNonversionedModel)
              (fk_field "PreserveFkToNonversionedModel" (Some "rel_p")) c
              history_model_of_preserve)
    as (Hin & Hatt).
  - right. left.
  - reflexivity.
  - intros g g' Hg Hc Hn. only_copy Hg Hc Hn.
  - not_listed.
  - intros r _ Hp. by vm_compute in Hp.
  - exists c. split; [exact Hin|]. split; [reflexivity|exact Hatt].
Defined.

(** [default_declaration_keeps_no_relation] at the test application. *)
Lemma default_declaration_keeps_no_relation_witness :
  ∃ hm,
    create_history_model (__init__ 1 None false) ConvertFkToNonversionedModel = Return hm
    ∧ Forall (fun c => isinstance_field c ForeignKey = false) (columns hm).
Proof.
  apply (default_declaration_keeps_no_relation 1 false ConvertFkToNonversionedModel).
  - unfold relations_declared.
    each_field ltac:(intros Hfk; first [by vm_compute in Hfk | by eexists]).
  - each_field ltac:(intros r Hr; first [discriminate | by injection Hr as <-]).
Defined.

(** [finalize_attaches_the_manager_and_patches_once] at the test application. *)
Lemma finalize_attaches_the_manager_and_patches_once_witness :
  ∃ w',
    _finalize history VersionedModel initial = (Return tt, w')
    ∧ descriptors w' !! ("VersionedModel", "history")
      = Some (history_model_of history VersionedModel)
    ∧ init_name_map w' !! "Options"
      = Some (PatchedInitNameMap history VersionedModel OriginalInitNameMap)
    ∧ properties w' = ∅.
Proof.
  destruct (finalize_attaches_the_manager_and_patches_once history VersionedModel
              (history_model_of history VersionedModel) initial history_model_of_versioned)
    as (w' & Hrun & Hdesc & _ & _ & Hpatch & Hprops & _).
  exists w'. split; [exact Hrun|]. rewrite Hdesc, Hpatch, Hprops.
  - split; [by rewrite lookup_insert_eq|]. split; [by rewrite lookup_insert_eq|done].
  - apply not_elem_of_empty.
Defined.

(** [declaration_without_keys_is_finalized_at_once] at the test application. *)
Lemma declaration_without_keys_is_finalized_at_once_witness :
  ∃ w',
    declare_class VersionedModel [(__init__ 1 None false, "history")] initial
    = (Return tt, w')
    ∧ post_save_receivers w' = [mkReceiver history m_post_save "VersionedModel"]
    ∧ post_delete_receivers w' = [mkReceiver history m_post_delete "VersionedModel"]
    ∧ descriptors w' !! ("VersionedModel", "history")
      = Some (history_model_of history VersionedModel).
Proof.
  destruct (declaration_without_keys_is_finalized_at_once (__init__ 1 None false)
              VersionedModel "history" (history_model_of history VersionedModel) initial)
    as (w' & Hrun & _ & _ & Hsave & Hdelete & Hdesc & _);
    [reflexivity|reflexivity|exact history_model_of_versioned|].
  exists w'. done.
Defined.

(** [retrofit_of_the_patching_model] at the test application. *)
Lemma retrofit_of_the_patching_model_witness :
  ∃ index w',
    rebuild_name_map orm_fields VersionedModel
      (set_app_cache_ready true
         (set_descriptors
            {[ ("VersionedModel", "history") := history_model_of history VersionedModel ]}
            (set_init_name_map
               {[ "Options" := PatchedInitNameMap history VersionedModel OriginalInitNameMap ]}
               initial)))
    = (Return index, w')
    ∧ index !! "history"
      = Some (history_entry VersionedModel (history_model_of history VersionedModel) id_field)
    ∧ index !! "integer" = orm_fields VersionedModel !! "integer".
Proof.
  destruct (retrofit_of_the_patching_model orm_fields history VersionedModel
              (history_model_of history VersionedModel) id_field
              (set_app_cache_ready true
                 (set_descriptors
                    {[ ("VersionedModel", "history")
                       := history_model_of history VersionedModel ]}
                    (set_init_name_map
                       {[ "Options"
                          := PatchedInitNameMap history VersionedModel OriginalInitNameMap ]}
                       initial))))
    as [Hready _]; [by vm_compute|by vm_compute|reflexivity|].
  destruct (Hready eq_refl) as (w' & Hrun & _ & _ & Hother).
  eexists _, w'. split; [exact Hrun|]. split; [by rewrite lookup_insert_eq|].
  by apply Hother.
Defined.
